(** * ipynb-mcp: the notebook tools of [main.py], embedded and verified

    The development follows [src/main.py]: the output formatter
    ([_format_text_output], [_format_image_output], [_format_table_output]),
    the renderer [get_formatted_content], the fetcher [get_full_output] and
    the four structural editors [edit_cell], [add_cell], [delete_cell] and
    [merge_cells].

    Conventions of the embedding.
    - A Python [int] is a [Z]; a Python [str] is a [string], one character of
      which stands for one code point. Lengths, slices, concatenations and
      substring tests do not look inside a character; the white space that
      [strip] removes is that of the code points below 256, and letter
      case, which [capitalize] and the patterns look at, is that of the
      ASCII letters, the only letters of a cell type and of the patterns.
    - A notebook on disk lives in a store [FS]; every tool is a function
      from the store to its answer and the store it leaves behind.
    - [html.unescape] and [json.dumps] belong to the Python library, not to
      this repository: they are the variables of the sections that use them. *)

From Stdlib Require Import ZArith String Ascii List DecimalString Lia.
From stdpp Require Import gmap strings list.

Open Scope Z_scope.

(** ** Python primitives *)

Module Py.

(** [str(n)] and the [{n}] of an f-string: decimal, with a leading [-]. *)
Definition str (n : Z) : string := NilZero.string_of_int (Z.to_int n).

(** [s * n]. *)
Fixpoint repeat (s : string) (n : nat) : string :=
  match n with
  | O => EmptyString
  | S k => s +:+ repeat s k
  end.

(** [format(n, "03d")]: zeros between the sign and the digits, up to three
    characters in all. *)
Definition format_03d (n : Z) : string :=
  let sign := if n <? 0 then "-" else EmptyString in
  let digits := str (Z.abs n) in
  sign +:+ repeat "0" (3 - String.length sign - String.length digits) +:+ digits.

(** [sep.join(parts)]. *)
Definition join (sep : string) (parts : list string) : string :=
  String.concat sep parts.

(** [s[:n]]. *)
Definition slice_to (n : nat) (s : string) : string := substring 0 n s.

(** [needle in hay]. *)
Fixpoint str_in (needle hay : string) : bool :=
  String.prefix needle hay ||
  match hay with
  | EmptyString => false
  | String _ hay' => str_in needle hay'
  end.

(** Truth value of an optional string: [None] and the empty string are false. *)
Definition truthy (o : option string) : bool :=
  match o with
  | None => false
  | Some s => negb (String.eqb s EmptyString)
  end.

(** [c.isspace()] on the code points below 256. *)
Definition isspace (c : ascii) : bool :=
  let n := nat_of_ascii c in
  ((9 <=? n) && (n <=? 13) || (28 <=? n) && (n <=? 32)
   || (n =? 133) || (n =? 160))%nat.

Fixpoint lstrip (s : string) : string :=
  match s with
  | EmptyString => EmptyString
  | String c s' => if isspace c then lstrip s' else s
  end.

Fixpoint rstrip (s : string) : string :=
  match s with
  | EmptyString => EmptyString
  | String c s' =>
      match rstrip s' with
      | EmptyString => if isspace c then EmptyString else String c EmptyString
      | r => String c r
      end
  end.

(** [s.strip()]. *)
Definition strip (s : string) : string := rstrip (lstrip s).

Definition is_upper (c : ascii) : bool :=
  let n := nat_of_ascii c in ((65 <=? n) && (n <=? 90))%nat.

Definition is_lower (c : ascii) : bool :=
  let n := nat_of_ascii c in ((97 <=? n) && (n <=? 122))%nat.

Definition lower (c : ascii) : ascii :=
  if is_upper c then ascii_of_nat (nat_of_ascii c + 32) else c.

Definition upper (c : ascii) : ascii :=
  if is_lower c then ascii_of_nat (nat_of_ascii c - 32) else c.

Fixpoint lower_str (s : string) : string :=
  match s with
  | EmptyString => EmptyString
  | String c s' => String (lower c) (lower_str s')
  end.

(** [s.capitalize()] on ASCII letters, which is all a cell type holds. *)
Definition capitalize (s : string) : string :=
  match s with
  | EmptyString => EmptyString
  | String c s' => String (upper c) (lower_str s')
  end.

End Py.

(** ** The regular expressions of the table extractor

    Every pattern of [main.py] is a sequence of literal characters, lazy
    [.*?] and at most one lazy group [(.*?)]. The five tag patterns are
    compiled with [re.DOTALL] (the dot takes every character) and
    [re.IGNORECASE] (a literal letter takes both of its cases); the pattern
    of [re.sub] has no flag, so its dot does not take a line feed, and no
    letter. The matcher is the backtracking one: a lazy item first tries
    the rest of the pattern where it stands, and takes one more character
    only when that fails. *)

Module Re.

Inductive item :=
| Lit (c : ascii)      (* a literal character, case-insensitive *)
| LazyAny              (* .*?   with re.DOTALL *)
| GroupLazyAny         (* (.*?) with re.DOTALL *)
| LazyNoLF.            (* .*?   without re.DOTALL: the dot stops at a line feed *)

Definition regex := list item.

Fixpoint lit (s : string) : regex :=
  match s with
  | EmptyString => []
  | String c s' => Lit c :: lit s'
  end.

Definition ci_eqb (c a : ascii) : bool := Ascii.eqb (Py.lower c) (Py.lower a).

(** A match anchored at the head of [s]: the text of group 1 (empty when
    the pattern has no group) and what follows the match. *)
Fixpoint match_here (p : regex) (s : string) : option (string * string) :=
  match p with
  | [] => Some (EmptyString, s)
  | Lit c :: p' =>
      match s with
      | String a s' => if ci_eqb c a then match_here p' s' else None
      | EmptyString => None
      end
  | LazyAny :: p' =>
      (fix lazy (s : string) : option (string * string) :=
         match match_here p' s with
         | Some r => Some r
         | None =>
             match s with
             | String _ s' => lazy s'
             | EmptyString => None
             end
         end) s
  | GroupLazyAny :: p' =>
      (fix lazy (s : string) : option (string * string) :=
         match match_here p' s with
         | Some (_, rest) => Some (EmptyString, rest)
         | None =>
             match s with
             | String a s' =>
                 match lazy s' with
                 | Some (g, rest) => Some (String a g, rest)
                 | None => None
                 end
             | EmptyString => None
             end
         end) s
  | LazyNoLF :: p' =>
      (fix lazy (s : string) : option (string * string) :=
         match match_here p' s with
         | Some r => Some r
         | None =>
             match s with
             | String a s' => if Ascii.eqb a (ascii_of_nat 10) then None else lazy s'
             | EmptyString => None
             end
         end) s
  end.

(** [re.search(p, s)]: the leftmost match; [group(1)] of it. *)
Fixpoint search (p : regex) (s : string) : option string :=
  match match_here p s with
  | Some (g, _) => Some g
  | None =>
      match s with
      | String _ s' => search p s'
      | EmptyString => None
      end
  end.

(** [re.findall(p, s)]: group 1 of the successive matches, none of which
    overlaps the one before. [skip] counts the characters of the last
    match that are still to be passed over. *)
Fixpoint findall_from (p : regex) (skip : nat) (s : string) : list string :=
  match skip, s with
  | S k, String _ s' => findall_from p k s'
  | S _, EmptyString => []
  | O, _ =>
      match match_here p s with
      | Some (g, rest) =>
          g :: match s with
               | String _ s' =>
                   findall_from p (String.length s - String.length rest - 1) s'
               | EmptyString => []
               end
      | None =>
          match s with
          | String _ s' => findall_from p O s'
          | EmptyString => []
          end
      end
  end.

Definition findall (p : regex) (s : string) : list string := findall_from p O s.

(** [re.sub(p, repl, s)]. *)
Fixpoint sub_from (p : regex) (repl : string) (skip : nat) (s : string) : string :=
  match skip, s with
  | S k, String _ s' => sub_from p repl k s'
  | S _, EmptyString => EmptyString
  | O, _ =>
      match match_here p s with
      | Some (_, rest) =>
          repl +:+ match s with
                  | String _ s' =>
                      sub_from p repl (String.length s - String.length rest - 1) s'
                  | EmptyString => EmptyString
                  end
      | None =>
          match s with
          | String c s' => String c (sub_from p repl O s')
          | EmptyString => EmptyString
          end
      end
  end.

Definition sub (p : regex) (repl s : string) : string := sub_from p repl O s.

End Re.

(** ** Data model: what [nbformat] hands to [main.py] *)

(** LINE FEED, the [\n] of the source. *)
Definition LF : string := String (ascii_of_nat 10) EmptyString.

(** A mime bundle ([output.data]): a [dict], kept in key order because
    [get_formatted_content] lists its keys. *)
Definition bundle := list (string * string).

Fixpoint dict_get (k : string) (d : bundle) : option string :=
  match d with
  | [] => None
  | (k', v) :: d' => if String.eqb k k' then Some v else dict_get k d'
  end.

(** [k in d]. *)
Definition dict_in (k : string) (d : bundle) : bool :=
  match dict_get k d with
  | Some _ => true
  | None => false
  end.

(** [d.keys()]. *)
Definition dict_keys (d : bundle) : list string := map fst d.

(** One output of a code cell. [output_type] decides which of the other
    attributes the code reads: [name] and [text] of a stream, [data] of a
    [display_data] or an [execute_result], [ename], [evalue] and
    [traceback] of an error. *)
Record Output := {
  output_type : string;
  name : string;
  text : string;
  data : bundle;
  ename : string;
  evalue : string;
  traceback : list string
}.

(** A cell: the three attributes [main.py] reads and writes. [outputs] is
    only ever read on a cell whose [cell_type] is [code]. The other
    attributes of a notebook cell ([metadata], [execution_count], [id]),
    which [new_code_cell] and [new_markdown_cell] set afresh, are not part
    of the record: an equation between cells speaks of type, source and
    outputs. *)
Record Cell := {
  cell_type : string;
  source : string;
  outputs : list Output
}.

Record Notebook := { cells : list Cell }.

(** [nbformat.v4.new_code_cell(source)] and [new_markdown_cell(source)]. *)
Definition new_code_cell (src : string) : Cell :=
  {| cell_type := "code"; source := src; outputs := [] |}.

Definition new_markdown_cell (src : string) : Cell :=
  {| cell_type := "markdown"; source := src; outputs := [] |}.

#[global] Instance Cell_inhabited : Inhabited Cell := populate (new_markdown_cell EmptyString).

#[global] Instance Output_inhabited : Inhabited Output :=
  populate {| output_type := EmptyString; name := EmptyString; text := EmptyString;
              data := []; ename := EmptyString; evalue := EmptyString;
              traceback := [] |}.

(** [cell.source = s] and [cell.outputs = []], on the record. *)
Definition set_source (s : string) (c : Cell) : Cell :=
  {| cell_type := cell_type c; source := s; outputs := outputs c |}.

Definition set_outputs (os : list Output) (c : Cell) : Cell :=
  {| cell_type := cell_type c; source := source c; outputs := os |}.

(** [l.insert(i, x)] for [0 <= i]: past the end it appends. *)
Definition list_insert_at {A} (i : nat) (x : A) (l : list A) : list A :=
  take i l ++ x :: drop i l.

(** [0 <= i < n], as the bounds checks of the tools write it. *)
Definition in_range (i : Z) (n : nat) : bool := (0 <=? i) && (i <? Z.of_nat n).

(** ** The document store *)

(** What a path holds: a notebook [nbformat.read] returns, or something it
    raises [exc] on. *)
Inductive file :=
| NotebookFile (nb : Notebook)
| UnreadableFile (exc : string).

(** What writing to a path does: it succeeds, [open] raises and the path is
    left alone, or the write raises after [open] has truncated the file. *)
Inductive write_effect :=
| WriteOk
| OpenRaises (exc : string)
| WriteRaises (exc : string) (remains : file).

Record FS := {
  files : gmap string file;
  on_write : string -> write_effect
}.

Definition _read_notebook (filepath : string) (fs : FS)
  : option Notebook * option string :=
  match files fs !! filepath with
  | Some (NotebookFile nb) => (Some nb, None)
  | None => (None, Some ("Notebook file not found at " +:+ filepath))
  | Some (UnreadableFile exc) => (None, Some ("Error reading notebook: " +:+ exc))
  end.

(** The store keeps the notebook object that was written. [nbformat.write]
    serialises every dict with its keys sorted, so the order of the keys of
    a mime bundle is the one thing a later read may give back differently;
    what is stated of a stored notebook is stated of its cells, their
    types, sources and outputs. *)
Definition _write_notebook (notebook : Notebook) (filepath : string) (fs : FS)
  : (bool * option string) * FS :=
  match on_write fs filepath with
  | WriteOk =>
      ((true, None),
       {| files := <[filepath := NotebookFile notebook]> (files fs);
          on_write := on_write fs |})
  | OpenRaises exc => ((false, Some ("Error writing notebook: " +:+ exc)), fs)
  | WriteRaises exc remains =>
      ((false, Some ("Error writing notebook: " +:+ exc)),
       {| files := <[filepath := remains]> (files fs); on_write := on_write fs |})
  end.

(** ** Output Formatter *)

Definition MAX_TEXT_OUTPUT_LENGTH : nat := 500.
Definition MAX_TABLE_ROWS : nat := 5.
Definition TRUNCATION_MARKER : string := "[TRUNCATED]".
Definition HINT_FULL_OUTPUT : string := "Use `get_full_output` for full content.".

(** The [(cell C [1-based], output O [1-based])] every truncated summary
    ends with. *)
Definition locator (cell_idx output_idx : Z) : string :=
  "(cell " +:+ Py.str cell_idx +:+ " [1-based], output " +:+ Py.str output_idx
  +:+ " [1-based])".

Definition _format_text_output (text_content : string) (cell_idx output_idx : Z)
  : string :=
  if (MAX_TEXT_OUTPUT_LENGTH <? String.length text_content)%nat then
    "Text: " +:+ Py.slice_to MAX_TEXT_OUTPUT_LENGTH text_content +:+ "... "
    +:+ TRUNCATION_MARKER +:+ " " +:+ HINT_FULL_OUTPUT +:+ " "
    +:+ locator cell_idx output_idx
  else "Text: " +:+ text_content.

Definition _format_image_output (cell_idx output_idx : Z) : string :=
  "Image (PNG) - IMG_ID" +:+ Py.format_03d cell_idx +:+ Py.format_03d output_idx
  +:+ " " +:+ HINT_FULL_OUTPUT +:+ " " +:+ locator cell_idx output_idx.

(** ** Table Extractor and Content Renderer *)

(** The answer of [get_formatted_content]. *)
Record Digest := {
  formatted_content : string;
  digest_filepath : string;
  digest_error : option string
}.

Section Formatter.

(** [html.unescape], of the Python library. *)
Variable unescape : string -> string.

(** [<tag.*?>(.*?)</tag>] *)
Definition tag_pattern (tag : string) : Re.regex :=
  Re.lit ("<" +:+ tag) ++ [Re.LazyAny] ++ Re.lit ">" ++ [Re.GroupLazyAny]
  ++ Re.lit ("</" +:+ tag +:+ ">").

(** [<.*?>], without flags *)
Definition any_tag : Re.regex := Re.lit "<" ++ [Re.LazyNoLF] ++ Re.lit ">".

(** [unescape(re.sub(r'<.*?>', '', h)).strip()] *)
Definition cell_text (h : string) : string :=
  Py.strip (unescape (Re.sub any_tag EmptyString h)).

(** ["| " + " | ".join([... for h in matches]) + " |"] *)
Definition pipe_row (matches : list string) : string :=
  "| " +:+ Py.join " | " (map cell_text matches) +:+ " |".

(** ["|" + "---|"*len(th_matches)] *)
Definition separator_row (th_matches : list string) : string :=
  "|" +:+ Py.repeat "---|" (length th_matches).

(** The rows the header block appends to [table_rows]. *)
Definition header_rows (html_content : string) : list string :=
  match Re.search (tag_pattern "thead") html_content with
  | Some header_content =>
      let th_matches := Re.findall (tag_pattern "th") header_content in
      match th_matches with
      | [] => []
      | _ => [pipe_row th_matches; separator_row th_matches]
      end
  | None => []
  end.

(** [tr_matches]: empty unless a body is found. *)
Definition body_tr_matches (html_content : string) : list string :=
  match Re.search (tag_pattern "tbody") html_content with
  | Some body_content => Re.findall (tag_pattern "tr") body_content
  | None => []
  end.

(** The loop [for i, tr in enumerate(tr_matches)], from index [i] on: it
    breaks at [MAX_TABLE_ROWS] and appends a row only when the [tr] has a
    [td]. *)
Fixpoint body_rows (i : nat) (tr_matches : list string) : list string :=
  match tr_matches with
  | [] => []
  | tr :: rest =>
      if (MAX_TABLE_ROWS <=? i)%nat then []
      else
        let td_matches := Re.findall (tag_pattern "td") tr in
        match td_matches with
        | [] => body_rows (S i) rest
        | _ => pipe_row td_matches :: body_rows (S i) rest
        end
  end.

Definition _format_table_output (html_content : string) (cell_idx output_idx : Z)
  : string :=
  let tr_matches := body_tr_matches html_content in
  let table_rows := header_rows html_content ++ body_rows 0 tr_matches in
  match table_rows with
  | _ :: _ =>
      let summary := Py.join LF table_rows in
      let summary :=
        if (MAX_TABLE_ROWS <? length tr_matches)%nat
        then summary +:+ LF +:+ "... " +:+ TRUNCATION_MARKER
        else summary in
      "Table (HTML): " +:+ LF +:+ "```markdown" +:+ LF +:+ summary +:+ LF
      +:+ "```" +:+ LF +:+ HINT_FULL_OUTPUT +:+ " " +:+ locator cell_idx output_idx
  | [] =>
      "HTML content (truncated): " +:+ Py.slice_to MAX_TEXT_OUTPUT_LENGTH html_content
      +:+ "... " +:+ TRUNCATION_MARKER +:+ " " +:+ HINT_FULL_OUTPUT +:+ " "
      +:+ locator cell_idx output_idx
  end.

(** ['text/html' in output.data and ('<table' in ... or '<TABLE' in ...)] *)
Definition has_html_table (d : bundle) : bool :=
  match dict_get "text/html" d with
  | Some html => Py.str_in "<table" html || Py.str_in "<TABLE" html
  | None => false
  end.

(** [output_summary] as the body of the inner loop of
    [get_formatted_content] leaves it, for cell [i + 1] and output [j + 1]. *)
Definition output_summary (i j : nat) (output : Output) : string :=
  let cell_idx := Z.of_nat i + 1 in
  let output_idx := Z.of_nat j + 1 in
  if String.eqb (output_type output) "stream" then
    _format_text_output (text output) cell_idx output_idx
  else if String.eqb (output_type output) "display_data"
          || String.eqb (output_type output) "execute_result" then
    if dict_in "image/png" (data output) then
      _format_image_output cell_idx output_idx
    else if has_html_table (data output) then
      _format_table_output (default EmptyString (dict_get "text/html" (data output)))
        cell_idx output_idx
    else
      match dict_get "text/plain" (data output) with
      | Some plain => _format_text_output plain cell_idx output_idx
      | None =>
          "Other data type: " +:+ Py.join ", " (dict_keys (data output)) +:+ " "
          +:+ HINT_FULL_OUTPUT +:+ " (cell " +:+ Py.str cell_idx +:+ ", output "
          +:+ Py.str output_idx +:+ ")"
      end
  else if String.eqb (output_type output) "error" then
    "Error: " +:+ ename output +:+ ": " +:+ evalue output +:+ " " +:+ HINT_FULL_OUTPUT
    +:+ " (cell " +:+ Py.str cell_idx +:+ ", output " +:+ Py.str output_idx +:+ ")"
  else EmptyString.

(** What one turn of the inner loop appends to [formatted_content]. *)
Definition output_pieces (i j : nat) (output : Output) : list string :=
  ["- " +:+ output_summary i j output +:+ LF].

(** [for j, output in enumerate(cell.outputs)], from index [j] on. *)
Fixpoint outputs_pieces (i j : nat) (os : list Output) : list string :=
  match os with
  | [] => []
  | output :: rest => output_pieces i j output ++ outputs_pieces i (S j) rest
  end.

(** The four pieces every cell starts with. *)
Definition source_pieces (i : nat) (cell : Cell) : list string :=
  [ "[[Cell " +:+ Py.str (Z.of_nat i + 1) +:+ " - " +:+ Py.capitalize (cell_type cell)
    +:+ "]]" +:+ LF;
    "```" +:+ LF;
    Py.strip (source cell);
    LF +:+ "```" +:+ LF ].

(** What one turn of the outer loop appends to [formatted_content]. *)
Definition cell_pieces (i : nat) (cell : Cell) : list string :=
  source_pieces i cell
  ++ (if String.eqb (cell_type cell) "code" then
        match outputs cell with
        | [] => []
        | os =>
            ("[[Cell " +:+ Py.str (Z.of_nat i + 1) +:+ " - Output]]" +:+ LF)
            :: outputs_pieces i 0 os
        end
      else [])
  ++ [LF].

(** [for i, cell in enumerate(notebook.cells)], from index [i] on. *)
Fixpoint cells_pieces (i : nat) (cs : list Cell) : list string :=
  match cs with
  | [] => []
  | cell :: rest => cell_pieces i cell ++ cells_pieces (S i) rest
  end.

Definition get_formatted_content (filepath : string) (fs : FS) : Digest :=
  let '(notebook, error) := _read_notebook filepath fs in
  if Py.truthy error then
    {| formatted_content := EmptyString; digest_filepath := filepath;
       digest_error := error |}
  else
    let pieces :=
      match notebook with
      | Some notebook => cells_pieces 0 (cells notebook)
      | None => []
      end in
    {| formatted_content := Py.join EmptyString pieces;
       digest_filepath := filepath; digest_error := error |}.

End Formatter.

(** ** Full-Payload Fetch *)

(** [full_output_data]: a string, or the record of an error output. *)
Inductive full_data :=
| DataStr (s : string)
| DataError (ename evalue : string) (traceback : list string).

(** The answer of [get_full_output]. *)
Record FullOutput := {
  full_output_data : option full_data;
  mime_type : option string;
  fetch_error : option string
}.

Definition fetch_failure (error : option string) : FullOutput :=
  {| full_output_data := None; mime_type := None; fetch_error := error |}.

Definition opt_eqb (o : option string) (s : string) : bool :=
  match o with
  | Some t => String.eqb t s
  | None => false
  end.

Section Fetch.

(** [json.dumps], of the Python library. *)
Variable json_dumps : bundle -> string.

(** The branch of [get_full_output] for a [display_data] or an
    [execute_result]: the payload and its mime type. *)
Definition select_payload (type_hint : option string) (d : bundle)
  : string * string :=
  if opt_eqb type_hint "image" && dict_in "image/png" d then
    (default EmptyString (dict_get "image/png" d), "image/png")
  else if opt_eqb type_hint "text" && dict_in "text/plain" d then
    (default EmptyString (dict_get "text/plain" d), "text/plain")
  else if opt_eqb type_hint "table" && dict_in "text/html" d then
    (default EmptyString (dict_get "text/html" d), "text/html")
  else if dict_in "text/plain" d then
    (default EmptyString (dict_get "text/plain" d), "text/plain")
  else if dict_in "image/png" d then
    (default EmptyString (dict_get "image/png" d), "image/png")
  else (json_dumps d, "application/json").

Definition get_full_output (filepath : string) (cell_index output_index : Z)
    (type_hint : option string) (fs : FS) : FullOutput :=
  let '(notebook, error) := _read_notebook filepath fs in
  if Py.truthy error then fetch_failure error
  else
    match notebook with
    | None => fetch_failure error
    | Some notebook =>
        let adjusted_cell_index := cell_index - 1 in
        let adjusted_output_index := output_index - 1 in
        if negb (in_range adjusted_cell_index (length (cells notebook))) then
          fetch_failure
            (Some ("Cell index " +:+ Py.str cell_index
                   +:+ " out of bounds. Please use a 1-based index."))
        else
          let cell := cells notebook !!! Z.to_nat adjusted_cell_index in
          if negb (String.eqb (cell_type cell) "code")
             || match outputs cell with [] => true | _ => false end then
            fetch_failure
              (Some ("Cell " +:+ Py.str cell_index
                     +:+ " is not a code cell or has no outputs."))
          else if negb (in_range adjusted_output_index (length (outputs cell))) then
            fetch_failure
              (Some ("Output index " +:+ Py.str output_index
                     +:+ " out of bounds for cell " +:+ Py.str cell_index
                     +:+ ". Please use a 1-based index."))
          else
            let output := outputs cell !!! Z.to_nat adjusted_output_index in
            if String.eqb (output_type output) "stream" then
              {| full_output_data := Some (DataStr (text output));
                 mime_type := Some ("text/" +:+ name output);
                 fetch_error := None |}
            else if String.eqb (output_type output) "display_data"
                    || String.eqb (output_type output) "execute_result" then
              let '(payload, mime) := select_payload type_hint (data output) in
              {| full_output_data := Some (DataStr payload);
                 mime_type := Some mime; fetch_error := None |}
            else if String.eqb (output_type output) "error" then
              {| full_output_data :=
                   Some (DataError (ename output) (evalue output) (traceback output));
                 mime_type := Some "application/json"; fetch_error := None |}
            else
              {| full_output_data := None; mime_type := None; fetch_error := None |}
    end.

End Fetch.

(** ** Structural Editor *)

(** The answer of [edit_cell], [delete_cell] and [merge_cells]. *)
Record EditResult := {
  success : bool;
  filepath_of : string;
  error : option string
}.

(** The answer of [add_cell]. *)
Record AddResult := {
  add_success : bool;
  add_filepath : string;
  new_cell_actual_index : Z;
  add_error : option string
}.

Definition edit_failure (filepath : string) (err : option string) : EditResult :=
  {| success := false; filepath_of := filepath; error := err |}.

Definition add_failure (filepath : string) (err : option string) : AddResult :=
  {| add_success := false; add_filepath := filepath; new_cell_actual_index := -1;
     add_error := err |}.

(** Each editor loads the notebook, checks its arguments, changes the
    notebook object in memory and writes it back. The part between the load
    and the write is a function of its own here, [*_in_memory]: from the
    loaded notebook to the error of a failed check, if any, and the notebook
    object as the editor leaves it. *)

Definition edit_cell_in_memory (cell_index : Z) (new_source_content : string)
    (notebook : Notebook) : option string * Notebook :=
  let adjusted_cell_index := cell_index - 1 in
  if negb (in_range adjusted_cell_index (length (cells notebook))) then
    (Some ("Cell index " +:+ Py.str cell_index
           +:+ " out of bounds. Please use a 1-based index."), notebook)
  else
    let i := Z.to_nat adjusted_cell_index in
    let cells1 := alter (set_source new_source_content) i (cells notebook) in
    let cells2 :=
      if String.eqb (cell_type (cells1 !!! i)) "code"
      then alter (set_outputs []) i cells1
      else cells1 in
    (None, {| cells := cells2 |}).

Definition add_cell_in_memory (cell_index : Z) (type source_content : string)
    (notebook : Notebook) : option string * Notebook :=
  let adjusted_cell_index := cell_index - 1 in
  if negb ((0 <=? adjusted_cell_index)
           && (adjusted_cell_index <=? Z.of_nat (length (cells notebook)))) then
    (Some ("Cell index " +:+ Py.str cell_index
           +:+ " out of bounds for adding. Please use a 1-based index."), notebook)
  else
    let new_cell :=
      if String.eqb type "code" then Some (new_code_cell source_content)
      else if String.eqb type "markdown" then Some (new_markdown_cell source_content)
      else None in
    match new_cell with
    | None =>
        (Some ("Invalid cell type: " +:+ type +:+ ". Must be 'code' or 'markdown'."),
         notebook)
    | Some new_cell =>
        (None,
         {| cells := list_insert_at (Z.to_nat adjusted_cell_index) new_cell
                       (cells notebook) |})
    end.

Definition delete_cell_in_memory (cell_index : Z) (notebook : Notebook)
  : option string * Notebook :=
  let adjusted_cell_index := cell_index - 1 in
  if negb (in_range adjusted_cell_index (length (cells notebook))) then
    (Some ("Cell index " +:+ Py.str cell_index
           +:+ " out of bounds. Please use a 1-based index."), notebook)
  else
    (None, {| cells := delete (Z.to_nat adjusted_cell_index) (cells notebook) |}).

Definition merge_cells_in_memory (cell_index1 cell_index2 : Z) (notebook : Notebook)
  : option string * Notebook :=
  let adj_idx1 := cell_index1 - 1 in
  let adj_idx2 := cell_index2 - 1 in
  if negb (in_range adj_idx1 (length (cells notebook)))
     || negb (in_range adj_idx2 (length (cells notebook))) then
    (Some ("One or both cell indices (" +:+ Py.str cell_index1 +:+ ", "
           +:+ Py.str cell_index2 +:+ ") are out of bounds."), notebook)
  else if negb (adj_idx2 =? adj_idx1 + 1) then
    (Some ("Cells are not consecutive. Cell " +:+ Py.str cell_index2
           +:+ " is not immediately after cell " +:+ Py.str cell_index1 +:+ "."),
     notebook)
  else
    let cell1 := cells notebook !!! Z.to_nat adj_idx1 in
    let cell2 := cells notebook !!! Z.to_nat adj_idx2 in
    let merged_source := source cell1 +:+ LF +:+ source cell2 in
    let merged_cell_type :=
      if String.eqb (cell_type cell1) "code" && String.eqb (cell_type cell2) "code"
      then "code" else "markdown" in
    let merged_cell :=
      if String.eqb merged_cell_type "code"
      then set_outputs [] (new_code_cell merged_source)
      else new_markdown_cell merged_source in
    let cells1 := <[Z.to_nat adj_idx1 := merged_cell]> (cells notebook) in
    (None, {| cells := delete (Z.to_nat adj_idx2) cells1 |}).

(** Load, change in memory, write back: the frame the three editors with
    an [EditResult] share. *)
Definition edit_tool (body : Notebook -> option string * Notebook)
    (filepath : string) (fs : FS) : EditResult * FS :=
  let '(notebook, error) := _read_notebook filepath fs in
  if Py.truthy error then (edit_failure filepath error, fs)
  else
    match notebook with
    | None => (edit_failure filepath error, fs)
    | Some notebook =>
        match body notebook with
        | (Some err, _) => (edit_failure filepath (Some err), fs)
        | (None, notebook') =>
            let '((ok, error), fs') := _write_notebook notebook' filepath fs in
            ({| success := ok; filepath_of := filepath; error := error |}, fs')
        end
    end.

Definition edit_cell (filepath : string) (cell_index : Z) (new_source_content : string)
  : FS -> EditResult * FS :=
  edit_tool (edit_cell_in_memory cell_index new_source_content) filepath.

Definition delete_cell (filepath : string) (cell_index : Z) : FS -> EditResult * FS :=
  edit_tool (delete_cell_in_memory cell_index) filepath.

Definition merge_cells (filepath : string) (cell_index1 cell_index2 : Z)
  : FS -> EditResult * FS :=
  edit_tool (merge_cells_in_memory cell_index1 cell_index2) filepath.

Definition add_cell (filepath : string) (cell_index : Z) (type source_content : string)
    (fs : FS) : AddResult * FS :=
  let '(notebook, error) := _read_notebook filepath fs in
  if Py.truthy error then (add_failure filepath error, fs)
  else
    match notebook with
    | None => (add_failure filepath error, fs)
    | Some notebook =>
        match add_cell_in_memory cell_index type source_content notebook with
        | (Some err, _) => (add_failure filepath (Some err), fs)
        | (None, notebook') =>
            let '((ok, error), fs') := _write_notebook notebook' filepath fs in
            ({| add_success := ok; add_filepath := filepath;
                new_cell_actual_index := if ok then cell_index else -1;
                add_error := error |}, fs')
        end
    end.

(** ** Definitions the statements use *)

(** The cell [merge_cells] builds from two neighbours. *)
Definition merged_of (c1 c2 : Cell) : Cell :=
  {| cell_type :=
       if String.eqb (cell_type c1) "code" && String.eqb (cell_type c2) "code"
       then "code" else "markdown";
     source := source c1 +:+ LF +:+ source c2;
     outputs := [] |}.

(** The selection policy of the fetch, following the spec's words: the key a
    type hint asks for, honoured when the output has it, and otherwise the
    ordered fallback [text/plain], [image/png], JSON of the whole bundle. *)
Definition hinted_key (type_hint : option string) : option string :=
  if opt_eqb type_hint "image" then Some "image/png"
  else if opt_eqb type_hint "text" then Some "text/plain"
  else if opt_eqb type_hint "table" then Some "text/html"
  else None.

Definition fallback_payload (json_dumps : bundle -> string) (d : bundle)
  : string * string :=
  match dict_get "text/plain" d, dict_get "image/png" d with
  | Some plain, _ => (plain, "text/plain")
  | None, Some png => (png, "image/png")
  | None, None => (json_dumps d, "application/json")
  end.

Definition fetch_policy (json_dumps : bundle -> string) (type_hint : option string)
    (d : bundle) : string * string :=
  match hinted_key type_hint with
  | Some key =>
      match dict_get key d with
      | Some payload => (payload, key)
      | None => fallback_payload json_dumps d
      end
  | None => fallback_payload json_dumps d
  end.

(** An output type the renderer and the fetch know. *)
Definition recognized (type : string) : bool :=
  String.eqb type "stream" || String.eqb type "display_data"
  || String.eqb type "execute_result" || String.eqb type "error".

(** A table tag in any letter casing, following the spec's words. *)
Definition has_table_tag_ci (html : string) : bool :=
  Py.str_in "<table" (Py.lower_str html).

(** The data rows of the table extractor, row by row: a pipe-row for every
    [tr] that has a [td], nothing for one that has none. *)
Definition data_rows (unescape : string -> string) (trs : list string) : list string :=
  flat_map (fun tr =>
              match Re.findall (tag_pattern "td") tr with
              | [] => []
              | td_matches => [pipe_row unescape td_matches]
              end) trs.

(** ** Sample documents *)

(** A stream output on [stdout]. *)
Definition stream_output (txt : string) : Output :=
  {| output_type := "stream"; name := "stdout"; text := txt; data := [];
     ename := EmptyString; evalue := EmptyString; traceback := [] |}.

(** A [display_data] output with the given mime bundle. *)
Definition display_output (d : bundle) : Output :=
  {| output_type := "display_data"; name := EmptyString; text := EmptyString;
     data := d; ename := EmptyString; evalue := EmptyString; traceback := [] |}.

(** An output whose type no version of the format knows. *)
Definition widget_output : Output :=
  {| output_type := "widget_state"; name := EmptyString; text := EmptyString;
     data := []; ename := EmptyString; evalue := EmptyString; traceback := [] |}.

(** A markdown title, then a code cell that printed [1]. *)
Definition sample_notebook : Notebook :=
  {| cells := [ {| cell_type := "markdown"; source := "# Title"; outputs := [] |};
                {| cell_type := "code"; source := "print(1)";
                   outputs := [stream_output "1"] |} ] |}.

(** A store with [sample_notebook] at [nb.ipynb], every path writable. *)
Definition sample_fs : FS :=
  {| files := {[ "nb.ipynb" := NotebookFile sample_notebook ]};
     on_write := fun _ => WriteOk |}.

(** [json.dumps] on a bundle whose keys and payloads need no escaping. *)
Definition plain_json_dumps (d : bundle) : string :=
  let quote := String (ascii_of_nat 34) EmptyString in
  "{" +:+ Py.join ", "
            (map (fun kv => quote +:+ fst kv +:+ quote +:+ ": " +:+ quote +:+ snd kv
                            +:+ quote) d)
  +:+ "}".

(** [html.unescape] on a text without [&], which it returns as it is. *)
Definition plain_unescape (s : string) : string := s.

(** 800 characters. *)
Definition long_text : string := Py.repeat "0123456789" 80.

(** A code cell whose only output has an unknown type. *)
Definition widget_notebook : Notebook :=
  {| cells := [ {| cell_type := "code"; source := "show()";
                   outputs := [widget_output] |} ] |}.

Definition widget_fs : FS :=
  {| files := {[ "w.ipynb" := NotebookFile widget_notebook ]};
     on_write := fun _ => WriteOk |}.

(** A table whose tags are capitalised. *)
Definition mixed_case_html : string :=
  "<Table><Thead><Tr><Th>a</Th></Tr></Thead><Tbody><Tr><Td>1</Td></Tr></Tbody></Table>".

(** Body rows [<tr><td>i</td><td>i</td></tr>] for [i] from [first] on. *)
Fixpoint html_rows (first : Z) (n : nat) : string :=
  match n with
  | O => EmptyString
  | S k =>
      "<tr><td>" +:+ Py.str first +:+ "</td><td>" +:+ Py.str first +:+ "</td></tr>"
      +:+ html_rows (first + 1) k
  end.

(** A table with the header [a | b] and the given body. *)
Definition html_table (body : string) : string :=
  "<table class='dataframe'><thead><tr><th>a</th><th>b</th></tr></thead><tbody>"
  +:+ body +:+ "</tbody></table>".

(** Eight body rows, each with two cells. *)
Definition sample_table_html : string := html_table (html_rows 1 8).

(** Eight body rows, the first of them without a cell. *)
Definition ragged_table_html : string := html_table ("<tr></tr>" +:+ html_rows 2 7).

(** A code cell that displayed a table, as HTML and as plain text. *)
Definition table_notebook : Notebook :=
  {| cells := [ {| cell_type := "code"; source := "df";
                   outputs := [display_output [("text/html", sample_table_html);
                                               ("text/plain", "a b")]] |} ] |}.

Definition table_fs : FS :=
  {| files := {[ "t.ipynb" := NotebookFile table_notebook ]};
     on_write := fun _ => WriteOk |}.

(** A store whose [bad.ipynb] is not a notebook and whose [ro.ipynb] holds
    the sample notebook but cannot be opened for writing. *)
Definition faulty_fs : FS :=
  {| files := {[ "bad.ipynb" := UnreadableFile "Notebook does not appear to be JSON";
                 "ro.ipynb" := NotebookFile sample_notebook ]};
     on_write := fun p => if String.eqb p "ro.ipynb"
                          then OpenRaises "Permission denied" else WriteOk |}.

(** An error output. *)
Definition error_output (en ev : string) (tb : list string) : Output :=
  {| output_type := "error"; name := EmptyString; text := EmptyString; data := [];
     ename := en; evalue := ev; traceback := tb |}.

(** A code cell with a stream on [stderr], an error, an output of an
    unknown type, and a figure that comes as an image and as plain text. *)
Definition outputs_notebook : Notebook :=
  {| cells := [ {| cell_type := "code"; source := "run()";
                   outputs := [ {| output_type := "stream"; name := "stderr";
                                   text := "warning"; data := [];
                                   ename := EmptyString; evalue := EmptyString;
                                   traceback := [] |};
                                error_output "ValueError" "bad value" ["line 1"; "line 2"];
                                widget_output;
                                display_output [("image/png", "iVBORw0KGgo=");
                                                ("text/plain", "<Figure>")] ] |} ] |}.

Definition outputs_fs : FS :=
  {| files := {[ "o.ipynb" := NotebookFile outputs_notebook ]};
     on_write := fun _ => WriteOk |}.

(** The cell [edit_cell] leaves in the place of [c]. *)
Definition edited_of (new_source_content : string) (c : Cell) : Cell :=
  {| cell_type := cell_type c;
     source := new_source_content;
     outputs := if String.eqb (cell_type c) "code" then [] else outputs c |}.

(** A raw cell followed by a code cell that printed something. *)
Definition raw_notebook : Notebook :=
  {| cells := [ {| cell_type := "raw"; source := "%%latex"; outputs := [] |};
                {| cell_type := "code"; source := "print(1)";
                   outputs := [stream_output "1"] |} ] |}.

Definition raw_fs : FS :=
  {| files := {[ "r.ipynb" := NotebookFile raw_notebook ]};
     on_write := fun _ => WriteOk |}.

(** A table written by hand, with rows and cells but no header and no body
    section. *)
Definition bare_table_html : string := "<table><tr><td>1</td><td>2</td></tr></table>".

(** A table that has a header and nothing else. *)
Definition header_only_html : string :=
  "<table><thead><tr><th>a</th><th>b</th></tr></thead></table>".

(** The number three decimal digits spell. *)
Definition digits_value (s : string) : nat :=
  fold_left (fun acc c => (10 * acc + (nat_of_ascii c - 48))%nat)
            (list_ascii_of_string s) O.

(** Eight body rows under a header section that holds data cells and no
    header cell. *)
Definition headless_table_html : string :=
  "<table><thead><tr><td>a</td><td>b</td></tr></thead><tbody>"
  +:+ html_rows 1 8 +:+ "</tbody></table>".



(** * Verification *)

(** ** Shared facts *)

Lemma in_range_lookup {A} (l : list A) (i : Z) (x : A) :
  0 <= i -> l !! Z.to_nat i = Some x -> in_range i (length l) = true.
Proof.
  intros Hi Hx. apply lookup_lt_Some in Hx. unfold in_range.
  apply andb_true_intro. split; [apply Z.leb_le | apply Z.ltb_lt]; lia.
Qed.

Lemma in_range_bounds (i : Z) (n : nat) :
  in_range i n = true <-> 0 <= i < Z.of_nat n.
Proof.
  unfold in_range. rewrite andb_true_iff, Z.leb_le, Z.ltb_lt. tauto.
Qed.

Lemma read_notebook_file (fs : FS) (path : string) (nb : Notebook) :
  files fs !! path = Some (NotebookFile nb) ->
  _read_notebook path fs = (Some nb, None).
Proof. intros H. unfold _read_notebook. now rewrite H. Qed.

(** An editor whose check fails answers with the error and leaves the store
    as it found it. *)
Lemma edit_tool_rejects body (fs : FS) (path : string) (nb nb' : Notebook) (err : string) :
  files fs !! path = Some (NotebookFile nb) ->
  body nb = (Some err, nb') ->
  edit_tool body path fs = (edit_failure path (Some err), fs).
Proof.
  intros Hf Hb. unfold edit_tool. rewrite (read_notebook_file _ _ _ Hf). simpl.
  now rewrite Hb.
Qed.

(** An editor whose checks pass, on a path that can be written, stores the
    notebook it made. *)
Lemma edit_tool_commits body (fs : FS) (path : string) (nb nb' : Notebook) :
  files fs !! path = Some (NotebookFile nb) ->
  body nb = (None, nb') ->
  on_write fs path = WriteOk ->
  edit_tool body path fs =
    ({| success := true; filepath_of := path; error := None |},
     {| files := <[path := NotebookFile nb']> (files fs); on_write := on_write fs |}).
Proof.
  intros Hf Hb Hw. unfold edit_tool. rewrite (read_notebook_file _ _ _ Hf). simpl.
  rewrite Hb. unfold _write_notebook. now rewrite Hw.
Qed.

(** Overwriting one cell and deleting the next, as splitting of the list. *)
Lemma insert_delete_next {A} (l : list A) (i : nat) (x y z : A) :
  l !! i = Some x -> l !! S i = Some y ->
  delete (S i) (<[i := z]> l) = take i l ++ z :: drop (S (S i)) l.
Proof.
  revert i. induction l as [|a l IH]; intros [|i] Hx Hy; simpl in *; try discriminate.
  - destruct l; simpl in *; [discriminate | reflexivity].
  - f_equal. now apply IH.
Qed.

Lemma delete_list_insert_at {A} (l : list A) (i : nat) (x : A) :
  (i <= length l)%nat -> delete i (list_insert_at i x l) = l.
Proof.
  unfold list_insert_at. revert i. induction l as [|a l IH]; intros [|i] Hi; simpl in *;
    try reflexivity; try lia.
  f_equal. apply IH. lia.
Qed.

(** Strings. [append] is never unfolded by [simpl]: these are its two
    equations. *)
Lemma str_app_cons (c : ascii) (a b : string) : String c a +:+ b = String c (a +:+ b).
Proof. reflexivity. Qed.

Lemma str_app_nil (b : string) : EmptyString +:+ b = b.
Proof. reflexivity. Qed.

(** The slice [s[:n]] of a string that has [n] characters is its first [n]
    characters. *)
Lemma slice_to_split (n : nat) (s : string) :
  (n <= String.length s)%nat ->
  exists tail, s = Py.slice_to n s +:+ tail /\ String.length (Py.slice_to n s) = n.
Proof.
  unfold Py.slice_to. revert s. induction n as [|n IH]; intros s Hn.
  - exists s. destruct s; simpl; auto.
  - destruct s as [|c s]; simpl in Hn; [lia |].
    destruct (IH s ltac:(lia)) as [tail [E L]].
    exists tail. split; cbn; [rewrite str_app_cons; f_equal; exact E | f_equal; exact L].
Qed.

Lemma str_app_assoc (a b c : string) : (a +:+ b) +:+ c = a +:+ (b +:+ c).
Proof.
  induction a as [|x a IH]; [reflexivity | now rewrite !str_app_cons, IH].
Qed.

Lemma str_app_empty_r (a : string) : a +:+ EmptyString = a.
Proof.
  induction a as [|x a IH]; [reflexivity | now rewrite str_app_cons, IH].
Qed.

(** Joining pieces with the empty separator is plain concatenation. *)
Lemma join_empty_cons (x : string) (l : list string) :
  Py.join EmptyString (x :: l) = x +:+ Py.join EmptyString l.
Proof.
  unfold Py.join. destruct l; simpl; [now rewrite str_app_empty_r | reflexivity].
Qed.

Lemma join_empty_app (l1 l2 : list string) :
  Py.join EmptyString (l1 ++ l2) = Py.join EmptyString l1 +:+ Py.join EmptyString l2.
Proof.
  induction l1 as [|x l1 IH]; [reflexivity |].
  rewrite <- app_comm_cons, !join_empty_cons, IH. now rewrite str_app_assoc.
Qed.

(** ** Structural Editor *)

Lemma merge_cells_in_memory_adjacent (nb : Notebook) (a : Z) (c1 c2 : Cell) :
  1 <= a ->
  cells nb !! Z.to_nat (a - 1) = Some c1 ->
  cells nb !! Z.to_nat a = Some c2 ->
  merge_cells_in_memory a (a + 1) nb =
    (None, {| cells := take (Z.to_nat (a - 1)) (cells nb)
                       ++ merged_of c1 c2 :: drop (Z.to_nat (a + 1)) (cells nb) |}).
Proof.
  intros Ha H1 H2. unfold merge_cells_in_memory.
  replace (a + 1 - 1) with a by lia.
  rewrite (in_range_lookup _ (a - 1) _ ltac:(lia) H1).
  rewrite (in_range_lookup _ a _ ltac:(lia) H2). simpl.
  replace (a =? a - 1 + 1) with true by (symmetry; apply Z.eqb_eq; lia). simpl.
  rewrite (list_lookup_total_correct _ _ _ H1), (list_lookup_total_correct _ _ _ H2).
  assert (Hm : (if String.eqb
                     (if String.eqb (cell_type c1) "code" && String.eqb (cell_type c2) "code"
                      then "code" else "markdown") "code"
                then set_outputs [] (new_code_cell (source c1 +:+ LF +:+ source c2))
                else new_markdown_cell (source c1 +:+ LF +:+ source c2))
               = merged_of c1 c2).
  { unfold merged_of.
    destruct (String.eqb (cell_type c1) "code" && String.eqb (cell_type c2) "code");
      reflexivity. }
  rewrite Hm. do 2 f_equal.
  replace (Z.to_nat a) with (S (Z.to_nat (a - 1))) in * by lia.
  replace (Z.to_nat (a + 1)) with (S (S (Z.to_nat (a - 1)))) by lia.
  now apply insert_delete_next with (x := c1) (y := c2).
Qed.

(** C1. Merging the neighbours at the 1-based indices [a] and [a + 1]: the
    notebook in memory becomes the cells before [a], one merged cell, and
    the cells after [a + 1]. The merged cell's source is the first source,
    one line feed, the second source; its outputs are empty; it is a code
    cell when both were code cells and a markdown cell when either was
    markdown. It stands at the first cell's place, the second cell is gone
    and the count is one less. On a path that can be written the tool
    answers success and the store holds that notebook. *)
Theorem merge_cells_adjacent (fs : FS) (path : string) (nb : Notebook) (a : Z)
    (c1 c2 : Cell) :
  files fs !! path = Some (NotebookFile nb) ->
  1 <= a ->
  cells nb !! Z.to_nat (a - 1) = Some c1 ->
  cells nb !! Z.to_nat a = Some c2 ->
  exists merged nb',
    merge_cells_in_memory a (a + 1) nb = (None, nb')
    /\ cells nb' = take (Z.to_nat (a - 1)) (cells nb)
                   ++ merged :: drop (Z.to_nat (a + 1)) (cells nb)
    /\ source merged = source c1 +:+ LF +:+ source c2
    /\ outputs merged = []
    /\ (cell_type c1 = "code" -> cell_type c2 = "code" -> cell_type merged = "code")
    /\ (cell_type c1 = "markdown" \/ cell_type c2 = "markdown" ->
        cell_type merged = "markdown")
    /\ cells nb' !! Z.to_nat (a - 1) = Some merged
    /\ (length (cells nb') + 1 = length (cells nb))%nat
    /\ (on_write fs path = WriteOk ->
        merge_cells path a (a + 1) fs =
          ({| success := true; filepath_of := path; error := None |},
           {| files := <[path := NotebookFile nb']> (files fs);
              on_write := on_write fs |})).
Proof.
  intros Hf Ha H1 H2.
  pose proof (merge_cells_in_memory_adjacent nb a c1 c2 Ha H1 H2) as Hm.
  eexists (merged_of c1 c2), _. split; [exact Hm |]. simpl.
  pose proof (lookup_lt_Some _ _ _ H1) as L1.
  pose proof (lookup_lt_Some _ _ _ H2) as L2.
  repeat split.
  - intros E1 E2. now rewrite E1, E2.
  - intros [E | E]; rewrite E; [reflexivity |].
    now destruct (String.eqb (cell_type c1) "code").
  - rewrite lookup_app_r; rewrite length_take; [| lia].
    replace (Z.to_nat (a - 1) - Z.to_nat (a - 1) `min` length (cells nb))%nat
      with O by lia.
    reflexivity.
  - rewrite length_app, length_take. simpl. rewrite length_drop. lia.
  - intros Hw. unfold merge_cells. now apply edit_tool_commits with (nb := nb).
Qed.

(** A notebook of the two code cells [x=1] and [print(x)], merged at (1, 2). *)
Lemma merge_cells_adjacent_witness :
  let nb := {| cells := [ {| cell_type := "code"; source := "x=1"; outputs := [] |};
                          {| cell_type := "code"; source := "print(x)"; outputs := [] |} ] |} in
  let fs := {| files := {[ "nb.ipynb" := NotebookFile nb ]};
               on_write := fun _ => WriteOk |} in
  exists merged nb',
    merge_cells_in_memory 1 (1 + 1) nb = (None, nb')
    /\ cells nb' = take (Z.to_nat (1 - 1)) (cells nb)
                   ++ merged :: drop (Z.to_nat (1 + 1)) (cells nb)
    /\ source merged = "x=1" +:+ LF +:+ "print(x)"
    /\ outputs merged = []
    /\ (@eq string "code" "code" -> @eq string "code" "code" -> cell_type merged = "code")
    /\ (@eq string "code" "markdown" \/ @eq string "code" "markdown" ->
        cell_type merged = "markdown")
    /\ cells nb' !! Z.to_nat (1 - 1) = Some merged
    /\ (length (cells nb') + 1 = 2)%nat
    /\ (WriteOk = WriteOk ->
        merge_cells "nb.ipynb" 1 (1 + 1) fs =
          ({| success := true; filepath_of := "nb.ipynb"; error := None |},
           {| files := <["nb.ipynb" := NotebookFile nb']> (files fs);
              on_write := on_write fs |})).
Proof.
  intros nb fs.
  exact (merge_cells_adjacent fs "nb.ipynb" nb 1 _ _
           (lookup_singleton_eq _ _) ltac:(lia) eq_refl eq_refl).
Defined.

(** C2. A merge of two cells that are both within bounds but whose second
    index is not the first plus one fails: the answer has [success] false
    and the error that the cells are not consecutive, the notebook in
    memory is the one that was loaded, and the store is the one the call
    found, so that loading again gives the same notebook. *)
Theorem merge_cells_not_adjacent (fs : FS) (path : string) (nb : Notebook)
    (cell_index1 cell_index2 : Z) :
  files fs !! path = Some (NotebookFile nb) ->
  1 <= cell_index1 <= Z.of_nat (length (cells nb)) ->
  1 <= cell_index2 <= Z.of_nat (length (cells nb)) ->
  cell_index2 <> cell_index1 + 1 ->
  let msg := "Cells are not consecutive. Cell " +:+ Py.str cell_index2
             +:+ " is not immediately after cell " +:+ Py.str cell_index1 +:+ "." in
  merge_cells_in_memory cell_index1 cell_index2 nb = (Some msg, nb)
  /\ merge_cells path cell_index1 cell_index2 fs =
       ({| success := false; filepath_of := path; error := Some msg |}, fs)
  /\ _read_notebook path (snd (merge_cells path cell_index1 cell_index2 fs))
       = (Some nb, None).
Proof.
  intros Hf B1 B2 Hne msg.
  assert (Hm : merge_cells_in_memory cell_index1 cell_index2 nb = (Some msg, nb)).
  { unfold merge_cells_in_memory.
    assert (R1 : in_range (cell_index1 - 1) (length (cells nb)) = true)
      by (apply in_range_bounds; lia).
    assert (R2 : in_range (cell_index2 - 1) (length (cells nb)) = true)
      by (apply in_range_bounds; lia).
    rewrite R1, R2. simpl.
    assert (E : (cell_index2 - 1 =? cell_index1 - 1 + 1) = false)
      by (apply Z.eqb_neq; lia).
    now rewrite E. }
  assert (Ht : merge_cells path cell_index1 cell_index2 fs =
               (edit_failure path (Some msg), fs)).
  { unfold merge_cells. now apply edit_tool_rejects with (nb := nb) (nb' := nb). }
  split; [exact Hm |]. split; [exact Ht |].
  rewrite Ht. simpl. now apply read_notebook_file.
Qed.

(** Three cells; merging the first with the third, then the second with the
    first. *)
Lemma merge_cells_not_adjacent_witness :
  let c := new_code_cell "x" in
  let nb := {| cells := [c; c; c] |} in
  let fs := {| files := {[ "nb.ipynb" := NotebookFile nb ]};
               on_write := fun _ => WriteOk |} in
  let msg := "Cells are not consecutive. Cell 3 is not immediately after cell 1." in
  merge_cells_in_memory 1 3 nb = (Some msg, nb)
  /\ merge_cells "nb.ipynb" 1 3 fs =
       ({| success := false; filepath_of := "nb.ipynb"; error := Some msg |}, fs)
  /\ _read_notebook "nb.ipynb" (snd (merge_cells "nb.ipynb" 1 3 fs)) = (Some nb, None).
Proof.
  intros c nb fs msg.
  exact (merge_cells_not_adjacent fs "nb.ipynb" nb 1 3 (lookup_singleton_eq _ _)
           ltac:(simpl; lia) ltac:(simpl; lia) ltac:(lia)).
Defined.

(** C3. Editing the cell at a valid 1-based index replaces that cell, and
    only that cell, by one with the same type and the new source; the
    outputs of a code cell become empty, those of any other cell (a
    markdown cell among them) stay as they were. On a path that can be
    written the tool answers success and the store holds the edited
    notebook. *)
Theorem edit_cell_replaces_source (fs : FS) (path : string) (nb : Notebook)
    (cell_index : Z) (new_source_content : string) (c : Cell) :
  files fs !! path = Some (NotebookFile nb) ->
  1 <= cell_index ->
  cells nb !! Z.to_nat (cell_index - 1) = Some c ->
  exists c' nb',
    edit_cell_in_memory cell_index new_source_content nb = (None, nb')
    /\ cells nb' = <[Z.to_nat (cell_index - 1) := c']> (cells nb)
    /\ cells nb' !! Z.to_nat (cell_index - 1) = Some c'
    /\ source c' = new_source_content
    /\ cell_type c' = cell_type c
    /\ (cell_type c = "code" -> outputs c' = [])
    /\ (cell_type c <> "code" -> outputs c' = outputs c)
    /\ (on_write fs path = WriteOk ->
        edit_cell path cell_index new_source_content fs =
          ({| success := true; filepath_of := path; error := None |},
           {| files := <[path := NotebookFile nb']> (files fs);
              on_write := on_write fs |})).
Proof.
  intros Hf Hk Hc.
  pose proof (lookup_lt_Some _ _ _ Hc) as Hlt.
  set (i := Z.to_nat (cell_index - 1)) in *.
  set (c' := if String.eqb (cell_type c) "code"
             then set_outputs [] (set_source new_source_content c)
             else set_source new_source_content c).
  assert (Hm : edit_cell_in_memory cell_index new_source_content nb
               = (None, {| cells := <[i := c']> (cells nb) |})).
  { unfold edit_cell_in_memory.
    rewrite (in_range_lookup _ (cell_index - 1) _ ltac:(lia) Hc). simpl. fold i.
    assert (H1 : alter (set_source new_source_content) i (cells nb) !! i
                 = Some (set_source new_source_content c)).
    { rewrite list_lookup_alter_eq. now rewrite Hc. }
    rewrite (list_lookup_total_correct _ _ _ H1). simpl.
    do 2 f_equal. subst c'.
    destruct (String.eqb (cell_type c) "code").
    - apply list_eq. intros j. destruct (decide (j = i)) as [->|Hj].
      + rewrite !list_lookup_alter_eq, Hc. simpl.
        now rewrite list_lookup_insert_eq.
      + rewrite !list_lookup_alter_ne by congruence.
        now rewrite list_lookup_insert_ne by congruence.
    - apply list_eq. intros j. destruct (decide (j = i)) as [->|Hj].
      + rewrite list_lookup_alter_eq, Hc. simpl.
        now rewrite list_lookup_insert_eq.
      + rewrite list_lookup_alter_ne by congruence.
        now rewrite list_lookup_insert_ne by congruence. }
  exists c', {| cells := <[i := c']> (cells nb) |}.
  split; [exact Hm |]. simpl.
  split; [reflexivity |].
  split; [now apply list_lookup_insert_eq |].
  subst c'. repeat split.
  - now destruct (String.eqb (cell_type c) "code").
  - now destruct (String.eqb (cell_type c) "code").
  - intros E. rewrite E. reflexivity.
  - intros E. apply String.eqb_neq in E. now rewrite E.
  - intros Hw. unfold edit_cell. now apply edit_tool_commits with (nb := nb).
Qed.

(** Editing the code cell of the sample notebook, the second one. *)
Lemma edit_cell_replaces_source_witness :
  exists c' nb',
    edit_cell_in_memory 2 "print(2)" sample_notebook = (None, nb')
    /\ cells nb' = <[Z.to_nat (2 - 1) := c']> (cells sample_notebook)
    /\ cells nb' !! Z.to_nat (2 - 1) = Some c'
    /\ source c' = "print(2)"
    /\ cell_type c' = "code"
    /\ (@eq string "code" "code" -> outputs c' = [])
    /\ ((@eq string "code" "code" -> False) -> outputs c' = [stream_output "1"])
    /\ (WriteOk = WriteOk ->
        edit_cell "nb.ipynb" 2 "print(2)" sample_fs =
          ({| success := true; filepath_of := "nb.ipynb"; error := None |},
           {| files := <["nb.ipynb" := NotebookFile nb']> (files sample_fs);
              on_write := on_write sample_fs |})).
Proof.
  exact (edit_cell_replaces_source sample_fs "nb.ipynb" sample_notebook 2 "print(2)" _
           (lookup_singleton_eq _ _) ltac:(lia) eq_refl).
Defined.

(** C9. Inserting a cell of a valid kind at a 1-based index [k] between 1
    and the cell count plus one, then deleting the cell at [k], gives back
    the cell sequence the notebook had: in memory, and, on a path that can
    be written, in the store, both tools answering success. *)
Theorem add_then_delete_restores (fs : FS) (path : string) (nb : Notebook) (k : Z)
    (type source_content : string) :
  files fs !! path = Some (NotebookFile nb) ->
  1 <= k <= Z.of_nat (length (cells nb)) + 1 ->
  type = "code" \/ type = "markdown" ->
  exists nb1,
    add_cell_in_memory k type source_content nb = (None, nb1)
    /\ delete_cell_in_memory k nb1 = (None, nb)
    /\ (on_write fs path = WriteOk ->
        let '(r1, fs1) := add_cell path k type source_content fs in
        let '(r2, fs2) := delete_cell path k fs1 in
        add_success r1 = true /\ new_cell_actual_index r1 = k /\ add_error r1 = None
        /\ files fs1 !! path = Some (NotebookFile nb1)
        /\ success r2 = true /\ error r2 = None
        /\ fs2 = fs).
Proof.
  intros Hf Hk Hty.
  set (new_cell := if String.eqb type "code" then new_code_cell source_content
                   else new_markdown_cell source_content).
  set (nb1 := {| cells := list_insert_at (Z.to_nat (k - 1)) new_cell (cells nb) |}).
  assert (Ha : add_cell_in_memory k type source_content nb = (None, nb1)).
  { unfold add_cell_in_memory.
    assert (R : ((0 <=? k - 1) && (k - 1 <=? Z.of_nat (length (cells nb)))) = true).
    { apply andb_true_intro. split; apply Z.leb_le; lia. }
    rewrite R. simpl. subst nb1 new_cell.
    destruct Hty as [-> | ->]; reflexivity. }
  assert (Hd : delete_cell_in_memory k nb1 = (None, nb)).
  { unfold delete_cell_in_memory. subst nb1. simpl.
    assert (L : length (list_insert_at (Z.to_nat (k - 1)) new_cell (cells nb))
                = S (length (cells nb))).
    { unfold list_insert_at. rewrite length_app, length_take. simpl.
      rewrite length_drop. lia. }
    assert (R : in_range (k - 1)
                  (length (list_insert_at (Z.to_nat (k - 1)) new_cell (cells nb))) = true).
    { apply in_range_bounds. rewrite L. lia. }
    rewrite R. simpl. rewrite delete_list_insert_at by lia.
    now destruct nb. }
  exists nb1. split; [exact Ha |]. split; [exact Hd |].
  intros Hw.
  assert (E1 : add_cell path k type source_content fs =
               ({| add_success := true; add_filepath := path;
                   new_cell_actual_index := k; add_error := None |},
                {| files := <[path := NotebookFile nb1]> (files fs);
                   on_write := on_write fs |})).
  { unfold add_cell. rewrite (read_notebook_file _ _ _ Hf). simpl.
    rewrite Ha. unfold _write_notebook. now rewrite Hw. }
  rewrite E1.
  set (fs1 := {| files := <[path := NotebookFile nb1]> (files fs);
                 on_write := on_write fs |}).
  assert (Hf1 : files fs1 !! path = Some (NotebookFile nb1)) by apply lookup_insert_eq.
  assert (E2 : delete_cell path k fs1 =
               ({| success := true; filepath_of := path; error := None |},
                {| files := <[path := NotebookFile nb]> (files fs1);
                   on_write := on_write fs1 |})).
  { unfold delete_cell. now apply edit_tool_commits with (nb := nb1). }
  rewrite E2. simpl. repeat split; try assumption.
  rewrite insert_insert_eq, (insert_id _ _ _ Hf). now destruct fs.
Qed.

(** A code cell put between the two cells of the sample notebook, and
    taken out again. *)
Lemma add_then_delete_restores_witness :
  exists nb1,
    add_cell_in_memory 2 "code" "y = 2" sample_notebook = (None, nb1)
    /\ delete_cell_in_memory 2 nb1 = (None, sample_notebook)
    /\ (WriteOk = WriteOk ->
        let '(r1, fs1) := add_cell "nb.ipynb" 2 "code" "y = 2" sample_fs in
        let '(r2, fs2) := delete_cell "nb.ipynb" 2 fs1 in
        add_success r1 = true /\ new_cell_actual_index r1 = 2 /\ add_error r1 = None
        /\ files fs1 !! "nb.ipynb" = Some (NotebookFile nb1)
        /\ success r2 = true /\ error r2 = None
        /\ fs2 = sample_fs).
Proof.
  exact (add_then_delete_restores sample_fs "nb.ipynb" sample_notebook 2 "code" "y = 2"
           (lookup_singleton_eq _ _) ltac:(simpl; lia) (or_introl eq_refl)).
Defined.

(** ** Full-Payload Fetch *)

(** The fetch up to the point where it looks at the output's type: the
    three checks pass for a code cell and an output it has. *)
Lemma get_full_output_reaches json_dumps (fs : FS) (path : string) (nb : Notebook)
    (cell_index output_index : Z) (type_hint : option string) (c : Cell) (o : Output) :
  files fs !! path = Some (NotebookFile nb) ->
  1 <= cell_index ->
  cells nb !! Z.to_nat (cell_index - 1) = Some c ->
  cell_type c = "code" ->
  1 <= output_index ->
  outputs c !! Z.to_nat (output_index - 1) = Some o ->
  output_type o = "display_data" \/ output_type o = "execute_result" ->
  get_full_output json_dumps path cell_index output_index type_hint fs =
    {| full_output_data := Some (DataStr (fst (select_payload json_dumps type_hint (data o))));
       mime_type := Some (snd (select_payload json_dumps type_hint (data o)));
       fetch_error := None |}.
Proof.
  intros Hf Hc Hcell Hcode Ho Hout Hty. unfold get_full_output.
  rewrite (read_notebook_file _ _ _ Hf). simpl.
  rewrite (in_range_lookup _ (cell_index - 1) _ ltac:(lia) Hcell). simpl.
  rewrite (list_lookup_total_correct _ _ _ Hcell). rewrite Hcode. simpl.
  destruct (outputs c) as [|o0 os] eqn:Eos; [now rewrite lookup_nil in Hout |].
  rewrite (in_range_lookup _ (output_index - 1) _ ltac:(lia) Hout). simpl.
  rewrite (list_lookup_total_correct _ _ _ Hout).
  destruct (select_payload json_dumps type_hint (data o)) as [p m].
  destruct Hty as [E | E]; rewrite E; reflexivity.
Qed.

Lemma select_payload_policy json_dumps (type_hint : option string) (d : bundle) :
  select_payload json_dumps type_hint d = fetch_policy json_dumps type_hint d.
Proof.
  unfold select_payload, fetch_policy, hinted_key, fallback_payload, dict_in.
  destruct type_hint as [h|]; simpl.
  - destruct (String.eqb_spec h "image") as [-> | _]; simpl.
    { destruct (dict_get "image/png" d), (dict_get "text/plain" d); reflexivity. }
    destruct (String.eqb_spec h "text") as [-> | _]; simpl.
    { destruct (dict_get "image/png" d), (dict_get "text/plain" d); reflexivity. }
    destruct (String.eqb_spec h "table") as [-> | _]; simpl;
      destruct (dict_get "image/png" d), (dict_get "text/plain" d),
        (dict_get "text/html" d); reflexivity.
  - destruct (dict_get "image/png" d), (dict_get "text/plain" d); reflexivity.
Qed.

(** C8. Fetching a [display_data] or [execute_result] output answers with
    the payload and mime type the selection policy names: the key of the
    type hint ([image], [text], [table]) when the output has it, otherwise
    [text/plain] if present, then [image/png] if present, then the JSON
    encoding of the whole bundle as [application/json]. *)
Theorem get_full_output_selection json_dumps (fs : FS) (path : string) (nb : Notebook)
    (cell_index output_index : Z) (type_hint : option string) (c : Cell) (o : Output) :
  files fs !! path = Some (NotebookFile nb) ->
  1 <= cell_index ->
  cells nb !! Z.to_nat (cell_index - 1) = Some c ->
  cell_type c = "code" ->
  1 <= output_index ->
  outputs c !! Z.to_nat (output_index - 1) = Some o ->
  output_type o = "display_data" \/ output_type o = "execute_result" ->
  get_full_output json_dumps path cell_index output_index type_hint fs =
    {| full_output_data := Some (DataStr (fst (fetch_policy json_dumps type_hint (data o))));
       mime_type := Some (snd (fetch_policy json_dumps type_hint (data o)));
       fetch_error := None |}.
Proof.
  intros. rewrite <- select_payload_policy.
  now apply get_full_output_reaches with (nb := nb) (c := c).
Qed.

(** C10. When the cell index is within bounds and the cell is not a code
    cell, or has no outputs, the fetch answers that the cell is not a code
    cell or has no outputs whatever the output index is, in bounds or out;
    in particular its error is never the one about the output index. *)
Theorem get_full_output_cell_check_first json_dumps (fs : FS) (path : string)
    (nb : Notebook) (cell_index : Z) (c : Cell) :
  files fs !! path = Some (NotebookFile nb) ->
  1 <= cell_index ->
  cells nb !! Z.to_nat (cell_index - 1) = Some c ->
  cell_type c <> "code" \/ outputs c = [] ->
  forall (output_index : Z) (type_hint : option string),
    get_full_output json_dumps path cell_index output_index type_hint fs =
      fetch_failure (Some ("Cell " +:+ Py.str cell_index
                           +:+ " is not a code cell or has no outputs."))
    /\ fetch_error (get_full_output json_dumps path cell_index output_index type_hint fs)
       <> Some ("Output index " +:+ Py.str output_index +:+ " out of bounds for cell "
                +:+ Py.str cell_index +:+ ". Please use a 1-based index.").
Proof.
  intros Hf Hc Hcell Hbad output_index type_hint.
  assert (E : get_full_output json_dumps path cell_index output_index type_hint fs =
              fetch_failure (Some ("Cell " +:+ Py.str cell_index
                                   +:+ " is not a code cell or has no outputs."))).
  { unfold get_full_output. rewrite (read_notebook_file _ _ _ Hf). simpl.
    rewrite (in_range_lookup _ (cell_index - 1) _ ltac:(lia) Hcell). simpl.
    rewrite (list_lookup_total_correct _ _ _ Hcell).
    destruct Hbad as [Hty | Hos].
    - apply String.eqb_neq in Hty. now rewrite Hty.
    - rewrite Hos. now rewrite orb_true_r. }
  split; [exact E |]. rewrite E. simpl. discriminate.
Qed.

(** ** Output Formatter *)

Lemma _format_text_output_long (text_content : string) (cell_idx output_idx : Z) :
  (500 < String.length text_content)%nat ->
  exists head tail,
    text_content = head +:+ tail
    /\ String.length head = 500%nat
    /\ _format_text_output text_content cell_idx output_idx =
         "Text: " +:+ head +:+ "... " +:+ TRUNCATION_MARKER +:+ " " +:+ HINT_FULL_OUTPUT
         +:+ " (cell " +:+ Py.str cell_idx +:+ " [1-based], output "
         +:+ Py.str output_idx +:+ " [1-based])".
Proof.
  intros Hlen.
  destruct (slice_to_split 500 text_content ltac:(lia)) as [tail [E L]].
  exists (Py.slice_to 500 text_content), tail.
  split; [exact E |]. split; [exact L |].
  unfold _format_text_output, MAX_TEXT_OUTPUT_LENGTH.
  apply Nat.ltb_lt in Hlen. rewrite Hlen. reflexivity.
Qed.

Lemma _format_text_output_short (text_content : string) (cell_idx output_idx : Z) :
  (String.length text_content <= 500)%nat ->
  _format_text_output text_content cell_idx output_idx = "Text: " +:+ text_content.
Proof.
  intros Hlen. unfold _format_text_output, MAX_TEXT_OUTPUT_LENGTH.
  apply Nat.ltb_ge in Hlen. now rewrite Hlen.
Qed.

(** C4. The summary of a stream output, the [j+1]-th of cell [i+1]. When
    its text has more than 500 characters the summary is the label, exactly
    the first 500 characters of the text, the ellipsis and the truncation
    marker, the hint, and the locator [(cell i+1 [1-based], output j+1
    [1-based])]. When the text has at most 500 characters the summary is
    the label and the whole text, nothing after it. *)
Theorem stream_summary_budget unescape (i j : nat) (o : Output) :
  output_type o = "stream" ->
  ((500 < String.length (text o))%nat ->
   exists head tail,
     text o = head +:+ tail
     /\ String.length head = 500%nat
     /\ output_summary unescape i j o =
          "Text: " +:+ head +:+ "... " +:+ TRUNCATION_MARKER +:+ " " +:+ HINT_FULL_OUTPUT
          +:+ " (cell " +:+ Py.str (Z.of_nat i + 1) +:+ " [1-based], output "
          +:+ Py.str (Z.of_nat j + 1) +:+ " [1-based])")
  /\ ((String.length (text o) <= 500)%nat ->
      output_summary unescape i j o = "Text: " +:+ text o).
Proof.
  intros Hty.
  assert (E : output_summary unescape i j o =
              _format_text_output (text o) (Z.of_nat i + 1) (Z.of_nat j + 1)).
  { unfold output_summary. now rewrite Hty. }
  rewrite E. split.
  - apply _format_text_output_long.
  - apply _format_text_output_short.
Qed.

(** ** The sample documents *)

Lemma sample_fs_holds : files sample_fs !! "nb.ipynb" = Some (NotebookFile sample_notebook).
Proof. apply lookup_singleton_eq. Qed.

Lemma sample_first_cell :
  cells sample_notebook !! Z.to_nat (1 - 1) = Some (new_markdown_cell "# Title").
Proof. reflexivity. Qed.

Lemma sample_first_cell_markdown : cell_type (new_markdown_cell "# Title") <> "code".
Proof. discriminate. Qed.

Lemma table_fs_holds : files table_fs !! "t.ipynb" = Some (NotebookFile table_notebook).
Proof. apply lookup_singleton_eq. Qed.

Lemma widget_fs_holds : files widget_fs !! "w.ipynb" = Some (NotebookFile widget_notebook).
Proof. apply lookup_singleton_eq. Qed.

Lemma long_text_length : (500 < String.length long_text)%nat.
Proof. apply Nat.ltb_lt. reflexivity. Qed.

(** Eight hundred characters from a stream, in the first output of the
    second cell. *)
Lemma stream_summary_budget_witness :
  exists head tail,
    long_text = head +:+ tail
    /\ String.length head = 500%nat
    /\ output_summary plain_unescape 1 0 (stream_output long_text) =
         "Text: " +:+ head
         +:+ "... [TRUNCATED] Use `get_full_output` for full content. (cell 2 [1-based], output 1 [1-based])".
Proof.
  exact (proj1 (stream_summary_budget plain_unescape 1 0 (stream_output long_text) eq_refl)
           long_text_length).
Defined.

(** The table of the sample, asked for as a table. *)
Lemma get_full_output_selection_witness :
  get_full_output plain_json_dumps "t.ipynb" 1 1 (Some "table") table_fs =
    {| full_output_data := Some (DataStr sample_table_html);
       mime_type := Some "text/html"; fetch_error := None |}.
Proof.
  exact (get_full_output_selection plain_json_dumps table_fs "t.ipynb" table_notebook
           1 1 (Some "table") _ _ table_fs_holds ltac:(lia) eq_refl eq_refl
           ltac:(lia) eq_refl (or_introl eq_refl)).
Defined.

(** The markdown cell of the sample notebook, asked for its seventh output. *)
Lemma get_full_output_cell_check_first_witness :
  get_full_output plain_json_dumps "nb.ipynb" 1 7 None sample_fs =
    fetch_failure (Some "Cell 1 is not a code cell or has no outputs.")
  /\ fetch_error (get_full_output plain_json_dumps "nb.ipynb" 1 7 None sample_fs)
     <> Some "Output index 7 out of bounds for cell 1. Please use a 1-based index.".
Proof.
  exact (get_full_output_cell_check_first plain_json_dumps sample_fs "nb.ipynb"
           sample_notebook 1 (new_markdown_cell "# Title") sample_fs_holds
           ltac:(lia) sample_first_cell (or_introl sample_first_cell_markdown) 7 None).
Defined.

(** ** Content Renderer *)

Lemma outputs_pieces_app unescape (i j : nat) (l1 l2 : list Output) :
  outputs_pieces unescape i j (l1 ++ l2) =
    outputs_pieces unescape i j l1 ++ outputs_pieces unescape i (j + length l1) l2.
Proof.
  revert j. induction l1 as [|o l1 IH]; intros j; simpl.
  - now rewrite Nat.add_0_r.
  - rewrite IH. now replace (S j + length l1)%nat with (j + S (length l1))%nat by lia.
Qed.

Lemma cells_pieces_app unescape (i : nat) (l1 l2 : list Cell) :
  cells_pieces unescape i (l1 ++ l2) =
    cells_pieces unescape i l1 ++ cells_pieces unescape (i + length l1) l2.
Proof.
  revert i. induction l1 as [|c l1 IH]; intros i.
  - simpl. now rewrite Nat.add_0_r.
  - cbn [cells_pieces app length]. rewrite IH, <- app_assoc.
    now replace (S i + length l1)%nat with (i + S (length l1))%nat by lia.
Qed.

Lemma unrecognized_summary unescape (i j : nat) (o : Output) :
  recognized (output_type o) = false -> output_summary unescape i j o = EmptyString.
Proof.
  unfold recognized, output_summary. intros H.
  destruct (String.eqb (output_type o) "stream"); [discriminate |].
  destruct (String.eqb (output_type o) "display_data"); [discriminate |].
  destruct (String.eqb (output_type o) "execute_result"); [discriminate |].
  destruct (String.eqb (output_type o) "error"); [discriminate |].
  reflexivity.
Qed.

Lemma get_formatted_content_digest unescape (fs : FS) (path : string) (nb : Notebook) :
  files fs !! path = Some (NotebookFile nb) ->
  formatted_content (get_formatted_content unescape path fs) =
    Py.join EmptyString (cells_pieces unescape 0 (cells nb)).
Proof.
  intros Hf. unfold get_formatted_content. now rewrite (read_notebook_file _ _ _ Hf).
Qed.

Lemma cell_pieces_with_outputs unescape (i : nat) (c : Cell) (o0 : Output)
    (os : list Output) :
  cell_type c = "code" ->
  outputs c = o0 :: os ->
  cell_pieces unescape i c =
    source_pieces i c
    ++ (("[[Cell " +:+ Py.str (Z.of_nat i + 1) +:+ " - Output]]" +:+ LF)
        :: outputs_pieces unescape i 0 (outputs c))
    ++ [LF].
Proof.
  intros Hcode Hos. unfold cell_pieces. now rewrite Hcode, Hos.
Qed.

(** C5, as the code has it. An output of a code cell whose type is none of
    [stream], [display_data], [execute_result], [error] gets the empty
    summary, and the digest keeps a line for it: the bare [- ] followed by
    a line feed, between the lines of the outputs before it and those of
    the outputs after it. *)
Theorem unknown_output_bare_line unescape (fs : FS) (path : string) (nb : Notebook)
    (pre post : list Cell) (c : Cell) (opre opost : list Output) (o : Output) :
  files fs !! path = Some (NotebookFile nb) ->
  cells nb = pre ++ c :: post ->
  cell_type c = "code" ->
  outputs c = opre ++ o :: opost ->
  recognized (output_type o) = false ->
  let i := length pre in
  let j := length opre in
  output_summary unescape i j o = EmptyString
  /\ output_pieces unescape i j o = ["- " +:+ LF]
  /\ formatted_content (get_formatted_content unescape path fs) =
       Py.join EmptyString (cells_pieces unescape 0 pre)
       +:+ Py.join EmptyString (source_pieces i c)
       +:+ ("[[Cell " +:+ Py.str (Z.of_nat i + 1) +:+ " - Output]]" +:+ LF)
       +:+ Py.join EmptyString (outputs_pieces unescape i 0 opre)
       +:+ ("- " +:+ LF)
       +:+ Py.join EmptyString (outputs_pieces unescape i (S j) opost)
       +:+ LF
       +:+ Py.join EmptyString (cells_pieces unescape (S i) post).
Proof.
  intros Hf Hcells Hcode Houts Hun i j.
  pose proof (unrecognized_summary unescape i j o Hun) as Hs.
  assert (Hp : output_pieces unescape i j o = ["- " +:+ LF]).
  { unfold output_pieces. now rewrite Hs. }
  split; [exact Hs |]. split; [exact Hp |].
  rewrite (get_formatted_content_digest _ _ _ _ Hf), Hcells, cells_pieces_app.
  cbn [cells_pieces]. fold i. replace (0 + i)%nat with i by lia.
  assert (Hne : exists o0 os, outputs c = o0 :: os).
  { rewrite Houts. destruct opre; simpl; eauto. }
  destruct Hne as [o0 [os Hne]].
  rewrite (cell_pieces_with_outputs _ _ _ _ _ Hcode Hne), Houts, outputs_pieces_app.
  cbn [outputs_pieces]. rewrite Nat.add_0_l. fold j. rewrite Hp.
  repeat (rewrite ?join_empty_app, ?join_empty_cons).
  rewrite !str_app_assoc. reflexivity.
Qed.

(** The notebook whose code cell has one output, of an unknown type. *)
Lemma unknown_output_bare_line_witness :
  output_summary plain_unescape 0 0 widget_output = EmptyString
  /\ output_pieces plain_unescape 0 0 widget_output = ["- " +:+ LF]
  /\ formatted_content (get_formatted_content plain_unescape "w.ipynb" widget_fs) =
       "[[Cell 1 - Code]]" +:+ LF +:+ "```" +:+ LF +:+ "show()" +:+ LF +:+ "```" +:+ LF
       +:+ "[[Cell 1 - Output]]" +:+ LF +:+ "- " +:+ LF +:+ LF.
Proof.
  exact (unknown_output_bare_line plain_unescape widget_fs "w.ipynb" widget_notebook
           [] [] _ [] [] widget_output widget_fs_holds eq_refl eq_refl eq_refl eq_refl).
Defined.

(** C5, as the claim states it, fails: the digest of that notebook has the
    line [- ] for the unknown output, so it is not the digest without a line
    for it, and the renderer did append a piece for it. *)
Lemma unknown_output_line_counterexample :
  recognized (output_type widget_output) = false
  /\ formatted_content (get_formatted_content plain_unescape "w.ipynb" widget_fs) =
       "[[Cell 1 - Code]]" +:+ LF +:+ "```" +:+ LF +:+ "show()" +:+ LF +:+ "```" +:+ LF
       +:+ "[[Cell 1 - Output]]" +:+ LF +:+ "- " +:+ LF +:+ LF
  /\ formatted_content (get_formatted_content plain_unescape "w.ipynb" widget_fs) <>
       "[[Cell 1 - Code]]" +:+ LF +:+ "```" +:+ LF +:+ "show()" +:+ LF +:+ "```" +:+ LF
       +:+ "[[Cell 1 - Output]]" +:+ LF +:+ LF
  /\ output_pieces plain_unescape 0 0 widget_output <> [].
Proof.
  split; [reflexivity |]. split; [reflexivity |]. split.
  - vm_compute. discriminate.
  - discriminate.
Qed.

(** ** Dispatch on the HTML payload *)

(** A result without an image whose HTML has [<table] or [<TABLE] goes to
    the table extractor. *)
Lemma table_tag_delegates unescape (i j : nat) (o : Output) (html : string) :
  output_type o = "display_data" \/ output_type o = "execute_result" ->
  dict_get "image/png" (data o) = None ->
  dict_get "text/html" (data o) = Some html ->
  Py.str_in "<table" html = true \/ Py.str_in "<TABLE" html = true ->
  output_summary unescape i j o =
    _format_table_output unescape html (Z.of_nat i + 1) (Z.of_nat j + 1).
Proof.
  intros Hty Himg Hhtml Htag. unfold output_summary, dict_in, has_html_table.
  rewrite Himg, Hhtml.
  assert (E : Py.str_in "<table" html || Py.str_in "<TABLE" html = true).
  { destruct Htag as [-> | ->]; [reflexivity | apply orb_true_r]. }
  rewrite E. destruct Hty as [-> | ->]; reflexivity.
Qed.

(** Once a header is found the extractor answers with a table. *)
Lemma table_output_label unescape (html : string) (cell_idx output_idx : Z) :
  header_rows unescape html <> [] ->
  exists rest,
    _format_table_output unescape html cell_idx output_idx = "Table (HTML): " +:+ rest.
Proof.
  intros Hne. unfold _format_table_output.
  destruct (header_rows unescape html) as [|h hs]; [congruence |].
  cbn [app]. eexists. reflexivity.
Qed.

(** C6 fails on the code. A [display_data] whose only payload is an HTML
    table with capitalised tags has a table tag, in mixed case, and no
    image; its summary is the generic one, not the table extractor's,
    although the extractor itself reads that table. *)
Theorem mixed_case_table_not_delegated (unescape : string -> string) :
  let o := display_output [("text/html", mixed_case_html)] in
  has_table_tag_ci mixed_case_html = true
  /\ dict_in "image/png" (data o) = false
  /\ output_summary unescape 0 0 o =
       "Other data type: text/html Use `get_full_output` for full content. (cell 1, output 1)"
  /\ output_summary unescape 0 0 o <> _format_table_output unescape mixed_case_html 1 1
  /\ exists rest,
       _format_table_output unescape mixed_case_html 1 1 = "Table (HTML): " +:+ rest.
Proof.
  intros o.
  assert (Hs : output_summary unescape 0 0 o =
               "Other data type: text/html Use `get_full_output` for full content. (cell 1, output 1)")
    by reflexivity.
  split; [reflexivity |]. split; [reflexivity |]. split; [exact Hs |].
  destruct (table_output_label unescape mixed_case_html 1 1) as [rest Hrest].
  { unfold header_rows.
    replace (Re.search (tag_pattern "thead") mixed_case_html)
      with (Some "<Tr><Th>a</Th></Tr>") by (vm_compute; reflexivity).
    replace (Re.findall (tag_pattern "th") "<Tr><Th>a</Th></Tr>")
      with ["a"] by (vm_compute; reflexivity).
    discriminate. }
  split; [| now exists rest].
  rewrite Hs, Hrest. rewrite !str_app_cons. discriminate.
Qed.

(** ** Table Extractor *)

(** The loop with its index and its [break] emits the data rows of the
    first [MAX_TABLE_ROWS] matches. *)
Lemma body_rows_data_rows unescape (i : nat) (trs : list string) :
  body_rows unescape i trs = data_rows unescape (take (5 - i) trs).
Proof.
  revert i. induction trs as [|tr rest IH]; intros i.
  - now rewrite take_nil.
  - cbn [body_rows]. unfold MAX_TABLE_ROWS.
    destruct (Nat.leb_spec 5 i) as [Hge | Hlt].
    + now replace (5 - i)%nat with O by lia.
    + replace (5 - i)%nat with (S (5 - S i)) by lia.
      cbn [take data_rows flat_map]. rewrite IH. unfold data_rows.
      now destruct (Re.findall (tag_pattern "td") tr).
Qed.

Lemma data_rows_full unescape (trs : list string) :
  (forall tr, tr ∈ trs -> Re.findall (tag_pattern "td") tr <> []) ->
  data_rows unescape trs =
    map (fun tr => pipe_row unescape (Re.findall (tag_pattern "td") tr)) trs.
Proof.
  induction trs as [|tr rest IH]; intros Hall; [reflexivity |].
  cbn [data_rows flat_map map].
  assert (Htr : Re.findall (tag_pattern "td") tr <> []) by (apply Hall; left).
  destruct (Re.findall (tag_pattern "td") tr) as [|td tds] eqn:E; [congruence |].
  cbn [app]. f_equal. apply IH. intros tr' Hin. apply Hall. now right.
Qed.

(** C7, as the code has it. For markup with a header that has header cells
    and a body, the extractor emits the header pipe-row, the dash separator
    row, and the data rows of the first five body rows: one pipe-row for
    every row that has a data cell, none for a row without one, so five
    pipe-rows when each of the five has a data cell. With more than five
    body rows (eight, say) the rows after the fifth add nothing and a
    truncation marker line follows; with at most five there is no marker. *)
Theorem table_extractor_rows unescape (html header_content body_content : string)
    (th_matches tr_matches : list string) (cell_idx output_idx : Z) :
  Re.search (tag_pattern "thead") html = Some header_content ->
  Re.findall (tag_pattern "th") header_content = th_matches ->
  th_matches <> [] ->
  Re.search (tag_pattern "tbody") html = Some body_content ->
  Re.findall (tag_pattern "tr") body_content = tr_matches ->
  let first_rows := take 5 tr_matches in
  let rows := pipe_row unescape th_matches :: separator_row th_matches
              :: data_rows unescape first_rows in
  let wrap summary :=
    "Table (HTML): " +:+ LF +:+ "```markdown" +:+ LF +:+ summary +:+ LF +:+ "```" +:+ LF
    +:+ HINT_FULL_OUTPUT +:+ " " +:+ locator cell_idx output_idx in
  ((5 < length tr_matches)%nat ->
   _format_table_output unescape html cell_idx output_idx =
     wrap (Py.join LF rows +:+ LF +:+ "... " +:+ TRUNCATION_MARKER))
  /\ ((length tr_matches <= 5)%nat ->
      _format_table_output unescape html cell_idx output_idx = wrap (Py.join LF rows))
  /\ ((forall tr, tr ∈ first_rows -> Re.findall (tag_pattern "td") tr <> []) ->
      data_rows unescape first_rows =
        map (fun tr => pipe_row unescape (Re.findall (tag_pattern "td") tr)) first_rows).
Proof.
  intros Hhead Hth Hne Hbody Htr first_rows rows wrap.
  assert (E : _format_table_output unescape html cell_idx output_idx =
              wrap (if (5 <? length tr_matches)%nat
                    then Py.join LF rows +:+ LF +:+ "... " +:+ TRUNCATION_MARKER
                    else Py.join LF rows)).
  { unfold _format_table_output, header_rows, body_tr_matches.
    rewrite Hhead, Hbody, Hth, Htr.
    destruct th_matches as [|th ths]; [congruence |].
    cbn [app]. rewrite body_rows_data_rows. reflexivity. }
  rewrite E. repeat split.
  - intros H. apply Nat.ltb_lt in H. now rewrite H.
  - intros H. apply Nat.ltb_ge in H. now rewrite H.
  - apply data_rows_full.
Qed.

Lemma sample_table_head :
  Re.search (tag_pattern "thead") sample_table_html = Some "<tr><th>a</th><th>b</th></tr>".
Proof. vm_compute. reflexivity. Qed.

Lemma sample_table_head_cells :
  Re.findall (tag_pattern "th") "<tr><th>a</th><th>b</th></tr>" = ["a"; "b"].
Proof. vm_compute. reflexivity. Qed.

Lemma sample_table_body :
  Re.search (tag_pattern "tbody") sample_table_html = Some (html_rows 1 8).
Proof. vm_compute. reflexivity. Qed.

Lemma sample_table_body_rows :
  Re.findall (tag_pattern "tr") (html_rows 1 8) =
    [ "<td>1</td><td>1</td>"; "<td>2</td><td>2</td>"; "<td>3</td><td>3</td>";
      "<td>4</td><td>4</td>"; "<td>5</td><td>5</td>"; "<td>6</td><td>6</td>";
      "<td>7</td><td>7</td>"; "<td>8</td><td>8</td>" ].
Proof. vm_compute. reflexivity. Qed.

Lemma two_cells_not_nil : ["a"; "b"] <> @nil string.
Proof. discriminate. Qed.

(** The sample table, eight body rows, as the first output of cell 2. *)
Lemma table_extractor_rows_witness :
  _format_table_output plain_unescape sample_table_html 2 1 =
    "Table (HTML): " +:+ LF +:+ "```markdown" +:+ LF
    +:+ "| a | b |" +:+ LF +:+ "|---|---|" +:+ LF
    +:+ "| 1 | 1 |" +:+ LF +:+ "| 2 | 2 |" +:+ LF +:+ "| 3 | 3 |" +:+ LF
    +:+ "| 4 | 4 |" +:+ LF +:+ "| 5 | 5 |" +:+ LF
    +:+ "... [TRUNCATED]" +:+ LF +:+ "```" +:+ LF
    +:+ "Use `get_full_output` for full content. (cell 2 [1-based], output 1 [1-based])".
Proof.
  exact (proj1 (table_extractor_rows plain_unescape sample_table_html _ _ _ _ 2 1
                  sample_table_head sample_table_head_cells two_cells_not_nil
                  sample_table_body sample_table_body_rows)
           ltac:(simpl; lia)).
Defined.

(** C7, as the claim states it, fails in two ways. A table with a header
    and eight body rows, the first of which has no data cell, gets four
    data pipe-rows, not five. And a table whose header section is found but
    holds no header cell gets no header pipe-row and no separator row: its
    summary starts with the first data row. *)
Lemma table_extractor_counterexample :
  (header_rows plain_unescape ragged_table_html = ["| a | b |"; "|---|---|"]
   /\ length (body_tr_matches ragged_table_html) = 8%nat
   /\ body_rows plain_unescape 0 (body_tr_matches ragged_table_html) =
        ["| 2 | 2 |"; "| 3 | 3 |"; "| 4 | 4 |"; "| 5 | 5 |"]
   /\ length (body_rows plain_unescape 0 (body_tr_matches ragged_table_html)) <> 5%nat
   /\ _format_table_output plain_unescape ragged_table_html 1 1 =
        "Table (HTML): " +:+ LF +:+ "```markdown" +:+ LF
        +:+ "| a | b |" +:+ LF +:+ "|---|---|" +:+ LF
        +:+ "| 2 | 2 |" +:+ LF +:+ "| 3 | 3 |" +:+ LF +:+ "| 4 | 4 |" +:+ LF
        +:+ "| 5 | 5 |" +:+ LF
        +:+ "... [TRUNCATED]" +:+ LF +:+ "```" +:+ LF
        +:+ "Use `get_full_output` for full content. (cell 1 [1-based], output 1 [1-based])")
  /\ (Re.search (tag_pattern "thead") headless_table_html
        = Some "<tr><td>a</td><td>b</td></tr>"
      /\ length (body_tr_matches headless_table_html) = 8%nat
      /\ header_rows plain_unescape headless_table_html = []
      /\ _format_table_output plain_unescape headless_table_html 1 1 =
           "Table (HTML): " +:+ LF +:+ "```markdown" +:+ LF
           +:+ "| 1 | 1 |" +:+ LF +:+ "| 2 | 2 |" +:+ LF +:+ "| 3 | 3 |" +:+ LF
           +:+ "| 4 | 4 |" +:+ LF +:+ "| 5 | 5 |" +:+ LF
           +:+ "... [TRUNCATED]" +:+ LF +:+ "```" +:+ LF
           +:+ "Use `get_full_output` for full content. (cell 1 [1-based], output 1 [1-based])").
Proof.
  assert (Hb : body_rows plain_unescape 0 (body_tr_matches ragged_table_html) =
               ["| 2 | 2 |"; "| 3 | 3 |"; "| 4 | 4 |"; "| 5 | 5 |"])
    by (vm_compute; reflexivity).
  split.
  - split; [vm_compute; reflexivity |]. split; [vm_compute; reflexivity |].
    split; [exact Hb |]. split; [rewrite Hb; simpl; lia |].
    vm_compute. reflexivity.
  - repeat split; vm_compute; reflexivity.
Qed.

(** * Further properties of the tools *)

(** ** Failures of the load *)

(** When the load fails, every tool answers with the load's error and the
    editors leave the store as it is. *)
Lemma tools_on_read_failure unescape json_dumps (fs : FS) (path err : string) :
  _read_notebook path fs = (None, Some err) ->
  err <> EmptyString ->
  get_formatted_content unescape path fs =
    {| formatted_content := EmptyString; digest_filepath := path;
       digest_error := Some err |}
  /\ (forall cell_index output_index type_hint,
        get_full_output json_dumps path cell_index output_index type_hint fs =
          fetch_failure (Some err))
  /\ (forall cell_index new_source_content,
        edit_cell path cell_index new_source_content fs =
          (edit_failure path (Some err), fs))
  /\ (forall cell_index type source_content,
        add_cell path cell_index type source_content fs =
          (add_failure path (Some err), fs))
  /\ (forall cell_index, delete_cell path cell_index fs = (edit_failure path (Some err), fs))
  /\ (forall cell_index1 cell_index2,
        merge_cells path cell_index1 cell_index2 fs = (edit_failure path (Some err), fs)).
Proof.
  intros Hr Hne.
  assert (Ht : Py.truthy (Some err) = true).
  { unfold Py.truthy. apply String.eqb_neq in Hne. now rewrite Hne. }
  unfold get_formatted_content, get_full_output, edit_cell, delete_cell, merge_cells,
    edit_tool, add_cell.
  rewrite Hr, Ht. repeat split.
Qed.

(** X1. A path that holds no file: every tool reports [Notebook file not
    found at <path>], the digest is empty, and no editor touches the store. *)
Theorem missing_notebook_reported unescape json_dumps (fs : FS) (path : string) :
  files fs !! path = None ->
  let err := Some ("Notebook file not found at " +:+ path) in
  get_formatted_content unescape path fs =
    {| formatted_content := EmptyString; digest_filepath := path; digest_error := err |}
  /\ (forall cell_index output_index type_hint,
        get_full_output json_dumps path cell_index output_index type_hint fs =
          fetch_failure err)
  /\ (forall cell_index new_source_content,
        edit_cell path cell_index new_source_content fs = (edit_failure path err, fs))
  /\ (forall cell_index type source_content,
        add_cell path cell_index type source_content fs = (add_failure path err, fs))
  /\ (forall cell_index, delete_cell path cell_index fs = (edit_failure path err, fs))
  /\ (forall cell_index1 cell_index2,
        merge_cells path cell_index1 cell_index2 fs = (edit_failure path err, fs)).
Proof.
  intros Hf err. apply tools_on_read_failure.
  - unfold _read_notebook. now rewrite Hf.
  - discriminate.
Qed.

Lemma sample_fs_lacks : files sample_fs !! "gone.ipynb" = None.
Proof. apply lookup_singleton_ne. discriminate. Qed.

(** The sample store, asked for a notebook it does not have. *)
Lemma missing_notebook_reported_witness :
  let err := Some "Notebook file not found at gone.ipynb" in
  get_formatted_content plain_unescape "gone.ipynb" sample_fs =
    {| formatted_content := EmptyString; digest_filepath := "gone.ipynb";
       digest_error := err |}
  /\ (forall cell_index output_index type_hint,
        get_full_output plain_json_dumps "gone.ipynb" cell_index output_index type_hint
          sample_fs = fetch_failure err)
  /\ (forall cell_index new_source_content,
        edit_cell "gone.ipynb" cell_index new_source_content sample_fs =
          (edit_failure "gone.ipynb" err, sample_fs))
  /\ (forall cell_index type source_content,
        add_cell "gone.ipynb" cell_index type source_content sample_fs =
          (add_failure "gone.ipynb" err, sample_fs))
  /\ (forall cell_index,
        delete_cell "gone.ipynb" cell_index sample_fs =
          (edit_failure "gone.ipynb" err, sample_fs))
  /\ (forall cell_index1 cell_index2,
        merge_cells "gone.ipynb" cell_index1 cell_index2 sample_fs =
          (edit_failure "gone.ipynb" err, sample_fs)).
Proof.
  exact (missing_notebook_reported plain_unescape plain_json_dumps sample_fs "gone.ipynb"
           sample_fs_lacks).
Defined.

(** X2. A path whose file [nbformat] cannot read: every tool reports [Error
    reading notebook: <exception>], the digest is empty, and no editor
    touches the store. *)
Theorem unreadable_notebook_reported unescape json_dumps (fs : FS) (path exc : string) :
  files fs !! path = Some (UnreadableFile exc) ->
  let err := Some ("Error reading notebook: " +:+ exc) in
  get_formatted_content unescape path fs =
    {| formatted_content := EmptyString; digest_filepath := path; digest_error := err |}
  /\ (forall cell_index output_index type_hint,
        get_full_output json_dumps path cell_index output_index type_hint fs =
          fetch_failure err)
  /\ (forall cell_index new_source_content,
        edit_cell path cell_index new_source_content fs = (edit_failure path err, fs))
  /\ (forall cell_index type source_content,
        add_cell path cell_index type source_content fs = (add_failure path err, fs))
  /\ (forall cell_index, delete_cell path cell_index fs = (edit_failure path err, fs))
  /\ (forall cell_index1 cell_index2,
        merge_cells path cell_index1 cell_index2 fs = (edit_failure path err, fs)).
Proof.
  intros Hf err. apply tools_on_read_failure.
  - unfold _read_notebook. now rewrite Hf.
  - discriminate.
Qed.

Lemma faulty_fs_bad :
  files faulty_fs !! "bad.ipynb" = Some (UnreadableFile "Notebook does not appear to be JSON").
Proof. reflexivity. Qed.

Lemma faulty_fs_ro : files faulty_fs !! "ro.ipynb" = Some (NotebookFile sample_notebook).
Proof. reflexivity. Qed.

(** The file of the faulty store that is not a notebook. *)
Lemma unreadable_notebook_reported_witness :
  let err := Some "Error reading notebook: Notebook does not appear to be JSON" in
  get_formatted_content plain_unescape "bad.ipynb" faulty_fs =
    {| formatted_content := EmptyString; digest_filepath := "bad.ipynb";
       digest_error := err |}
  /\ (forall cell_index output_index type_hint,
        get_full_output plain_json_dumps "bad.ipynb" cell_index output_index type_hint
          faulty_fs = fetch_failure err)
  /\ (forall cell_index new_source_content,
        edit_cell "bad.ipynb" cell_index new_source_content faulty_fs =
          (edit_failure "bad.ipynb" err, faulty_fs))
  /\ (forall cell_index type source_content,
        add_cell "bad.ipynb" cell_index type source_content faulty_fs =
          (add_failure "bad.ipynb" err, faulty_fs))
  /\ (forall cell_index,
        delete_cell "bad.ipynb" cell_index faulty_fs =
          (edit_failure "bad.ipynb" err, faulty_fs))
  /\ (forall cell_index1 cell_index2,
        merge_cells "bad.ipynb" cell_index1 cell_index2 faulty_fs =
          (edit_failure "bad.ipynb" err, faulty_fs)).
Proof.
  exact (unreadable_notebook_reported plain_unescape plain_json_dumps faulty_fs
           "bad.ipynb" _ faulty_fs_bad).
Defined.

(** ** Failures of the checks *)

Lemma in_range_outside (i : Z) (n : nat) :
  i < 0 \/ Z.of_nat n <= i -> in_range i n = false.
Proof.
  intros H. unfold in_range. apply andb_false_iff.
  destruct H; [left; apply Z.leb_gt | right; apply Z.ltb_ge]; lia.
Qed.

(** An editor whose check fails on a loaded notebook, with the error spelled
    out. *)
Lemma edit_tool_rejects_with body (fs : FS) (path : string) (nb : Notebook) (err : string) :
  files fs !! path = Some (NotebookFile nb) ->
  body nb = (Some err, nb) ->
  edit_tool body path fs =
    ({| success := false; filepath_of := path; error := Some err |}, fs).
Proof. intros Hf Hb. now apply edit_tool_rejects with (nb := nb) (nb' := nb). Qed.

(** X3. A 1-based cell index below 1 or above the cell count (0 among them)
    is refused by [edit_cell], [delete_cell] and [get_full_output] with the
    same error, which quotes the index as the caller gave it; the two
    editors leave the store as it is. *)
Theorem cell_index_out_of_bounds json_dumps (fs : FS) (path : string) (nb : Notebook)
    (cell_index : Z) :
  files fs !! path = Some (NotebookFile nb) ->
  cell_index < 1 \/ Z.of_nat (length (cells nb)) < cell_index ->
  let err := Some ("Cell index " +:+ Py.str cell_index
                   +:+ " out of bounds. Please use a 1-based index.") in
  (forall new_source_content,
     edit_cell path cell_index new_source_content fs =
       ({| success := false; filepath_of := path; error := err |}, fs))
  /\ delete_cell path cell_index fs =
       ({| success := false; filepath_of := path; error := err |}, fs)
  /\ (forall output_index type_hint,
        get_full_output json_dumps path cell_index output_index type_hint fs =
          fetch_failure err).
Proof.
  intros Hf Hout err.
  assert (R : in_range (cell_index - 1) (length (cells nb)) = false)
    by (apply in_range_outside; lia).
  repeat split.
  - intros src. unfold edit_cell. apply edit_tool_rejects_with with (nb := nb); [exact Hf |].
    unfold edit_cell_in_memory. now rewrite R.
  - unfold delete_cell. apply edit_tool_rejects_with with (nb := nb); [exact Hf |].
    unfold delete_cell_in_memory. now rewrite R.
  - intros oi hint. unfold get_full_output.
    rewrite (read_notebook_file _ _ _ Hf). simpl. now rewrite R.
Qed.

(** Index 0 on the sample notebook. *)
Lemma cell_index_out_of_bounds_witness :
  let err := Some "Cell index 0 out of bounds. Please use a 1-based index." in
  (forall new_source_content,
     edit_cell "nb.ipynb" 0 new_source_content sample_fs =
       ({| success := false; filepath_of := "nb.ipynb"; error := err |}, sample_fs))
  /\ delete_cell "nb.ipynb" 0 sample_fs =
       ({| success := false; filepath_of := "nb.ipynb"; error := err |}, sample_fs)
  /\ (forall output_index type_hint,
        get_full_output plain_json_dumps "nb.ipynb" 0 output_index type_hint sample_fs =
          fetch_failure err).
Proof.
  exact (cell_index_out_of_bounds plain_json_dumps sample_fs "nb.ipynb" sample_notebook 0
           sample_fs_holds (or_introl (ltac:(lia) : 0 < 1))).
Defined.

(** X4. [add_cell] refuses an index below 1 or above the cell count plus
    one, whatever the cell type is (the bounds are checked before the
    type): the answer carries the index -1 and the store is left as it is. *)
Theorem add_cell_out_of_bounds (fs : FS) (path : string) (nb : Notebook) (cell_index : Z) :
  files fs !! path = Some (NotebookFile nb) ->
  cell_index < 1 \/ Z.of_nat (length (cells nb)) + 1 < cell_index ->
  forall type source_content,
    add_cell path cell_index type source_content fs =
      ({| add_success := false; add_filepath := path; new_cell_actual_index := -1;
          add_error := Some ("Cell index " +:+ Py.str cell_index
                             +:+ " out of bounds for adding. Please use a 1-based index.") |},
       fs).
Proof.
  intros Hf Hout type source_content. unfold add_cell.
  rewrite (read_notebook_file _ _ _ Hf). simpl. unfold add_cell_in_memory.
  assert (R : (0 <=? cell_index - 1) && (cell_index - 1 <=? Z.of_nat (length (cells nb)))
              = false).
  { apply andb_false_iff. destruct Hout; [left; apply Z.leb_gt | right; apply Z.leb_gt]; lia. }
  now rewrite R.
Qed.

(** Index 4 on the two cells of the sample notebook, with a type that is
    not valid either. *)
Lemma add_cell_out_of_bounds_witness :
  add_cell "nb.ipynb" 4 "raw" "x" sample_fs =
    ({| add_success := false; add_filepath := "nb.ipynb"; new_cell_actual_index := -1;
        add_error :=
          Some "Cell index 4 out of bounds for adding. Please use a 1-based index." |},
     sample_fs).
Proof.
  exact (add_cell_out_of_bounds sample_fs "nb.ipynb" sample_notebook 4 sample_fs_holds
           (or_intror (ltac:(simpl; lia) : Z.of_nat 2 + 1 < 4)) "raw" "x").
Defined.

(** X5. [add_cell] with an index within bounds and a cell type other than
    [code] and [markdown] ([raw] among them) is refused: the answer names
    the type and carries the index -1, and the store is left as it is. *)
Theorem add_cell_invalid_type (fs : FS) (path : string) (nb : Notebook) (cell_index : Z)
    (type source_content : string) :
  files fs !! path = Some (NotebookFile nb) ->
  1 <= cell_index <= Z.of_nat (length (cells nb)) + 1 ->
  type <> "code" ->
  type <> "markdown" ->
  add_cell path cell_index type source_content fs =
    ({| add_success := false; add_filepath := path; new_cell_actual_index := -1;
        add_error := Some ("Invalid cell type: " +:+ type
                           +:+ ". Must be 'code' or 'markdown'.") |},
     fs).
Proof.
  intros Hf Hk Hc Hm. unfold add_cell.
  rewrite (read_notebook_file _ _ _ Hf). simpl. unfold add_cell_in_memory.
  assert (R : (0 <=? cell_index - 1) && (cell_index - 1 <=? Z.of_nat (length (cells nb)))
              = true).
  { apply andb_true_intro. split; apply Z.leb_le; lia. }
  rewrite R. simpl.
  apply String.eqb_neq in Hc. apply String.eqb_neq in Hm. now rewrite Hc, Hm.
Qed.

Lemma raw_not_code : "raw" <> "code".
Proof. discriminate. Qed.

Lemma raw_not_markdown : "raw" <> "markdown".
Proof. discriminate. Qed.

(** A raw cell for the sample notebook. *)
Lemma add_cell_invalid_type_witness :
  add_cell "nb.ipynb" 1 "raw" "x" sample_fs =
    ({| add_success := false; add_filepath := "nb.ipynb"; new_cell_actual_index := -1;
        add_error := Some "Invalid cell type: raw. Must be 'code' or 'markdown'." |},
     sample_fs).
Proof.
  exact (add_cell_invalid_type sample_fs "nb.ipynb" sample_notebook 1 "raw" "x"
           sample_fs_holds ltac:(simpl; lia) raw_not_code raw_not_markdown).
Defined.

(** X6. [merge_cells] with either index below 1 or above the cell count is
    refused with the error that names both indices, whether or not the two
    are consecutive; so merging the last cell with the one after it fails
    in this way. The store is left as it is. *)
Theorem merge_cells_out_of_bounds (fs : FS) (path : string) (nb : Notebook)
    (cell_index1 cell_index2 : Z) :
  files fs !! path = Some (NotebookFile nb) ->
  let n := Z.of_nat (length (cells nb)) in
  cell_index1 < 1 \/ n < cell_index1 \/ cell_index2 < 1 \/ n < cell_index2 ->
  merge_cells path cell_index1 cell_index2 fs =
    ({| success := false; filepath_of := path;
        error := Some ("One or both cell indices (" +:+ Py.str cell_index1 +:+ ", "
                       +:+ Py.str cell_index2 +:+ ") are out of bounds.") |},
     fs).
Proof.
  intros Hf n Hout. unfold merge_cells.
  apply edit_tool_rejects_with with (nb := nb); [exact Hf |].
  unfold merge_cells_in_memory.
  assert (R : negb (in_range (cell_index1 - 1) (length (cells nb)))
              || negb (in_range (cell_index2 - 1) (length (cells nb))) = true).
  { apply orb_true_iff. subst n.
    destruct Hout as [H | [H | [H | H]]];
      [left | left | right | right];
      apply negb_true_iff, in_range_outside; lia. }
  now rewrite R.
Qed.

(** The last cell of the sample notebook and the one after it. *)
Lemma merge_cells_out_of_bounds_witness :
  merge_cells "nb.ipynb" 2 3 sample_fs =
    ({| success := false; filepath_of := "nb.ipynb";
        error := Some "One or both cell indices (2, 3) are out of bounds." |},
     sample_fs).
Proof.
  exact (merge_cells_out_of_bounds sample_fs "nb.ipynb" sample_notebook 2 3
           sample_fs_holds
           (or_intror (or_intror (or_intror (ltac:(simpl; lia) : Z.of_nat 2 < 3))))).
Defined.

(** ** Full-Payload Fetch: the output index and the output types *)

(** The three checks of the fetch, passed one after the other. *)
Ltac rewrite_in_range H :=
  match type of H with
  | ?l !! Z.to_nat ?i = Some ?x =>
      let R := fresh "R" in
      assert (R : in_range i (length l) = true) by (apply (in_range_lookup l i x); [lia | exact H]);
      rewrite R; clear R
  end.

Ltac fetch_past_checks Hf Hcell Hcode Hout :=
  unfold get_full_output;
  rewrite (read_notebook_file _ _ _ Hf); simpl;
  rewrite_in_range Hcell; simpl;
  rewrite (list_lookup_total_correct _ _ _ Hcell); rewrite Hcode; simpl;
  match type of Hout with
  | outputs ?c !! _ = Some _ =>
      let E := fresh "Eos" in
      destruct (outputs c) as [|? ?] eqn:E; [now rewrite lookup_nil in Hout |];
      rewrite_in_range Hout; simpl;
      rewrite (list_lookup_total_correct _ _ _ Hout)
  end.

(** X7. On a code cell that has outputs, an output index below 1 or above
    the number of outputs is refused with the error that quotes both
    indices. *)
Theorem output_index_out_of_bounds json_dumps (fs : FS) (path : string) (nb : Notebook)
    (cell_index output_index : Z) (type_hint : option string) (c : Cell) :
  files fs !! path = Some (NotebookFile nb) ->
  1 <= cell_index ->
  cells nb !! Z.to_nat (cell_index - 1) = Some c ->
  cell_type c = "code" ->
  outputs c <> [] ->
  output_index < 1 \/ Z.of_nat (length (outputs c)) < output_index ->
  get_full_output json_dumps path cell_index output_index type_hint fs =
    fetch_failure (Some ("Output index " +:+ Py.str output_index
                         +:+ " out of bounds for cell " +:+ Py.str cell_index
                         +:+ ". Please use a 1-based index.")).
Proof.
  intros Hf Hc Hcell Hcode Hne Hout. unfold get_full_output.
  rewrite (read_notebook_file _ _ _ Hf). simpl.
  rewrite (in_range_lookup _ (cell_index - 1) _ ltac:(lia) Hcell). simpl.
  rewrite (list_lookup_total_correct _ _ _ Hcell). rewrite Hcode. simpl.
  destruct (outputs c) as [|o0 os] eqn:Eos; [congruence |].
  assert (R : in_range (output_index - 1) (length (o0 :: os)) = false)
    by (apply in_range_outside; lia).
  now rewrite R.
Qed.

Lemma outputs_fs_holds : files outputs_fs !! "o.ipynb" = Some (NotebookFile outputs_notebook).
Proof. apply lookup_singleton_eq. Qed.

Lemma sample_second_cell :
  cells sample_notebook !! Z.to_nat (2 - 1) =
    Some {| cell_type := "code"; source := "print(1)"; outputs := [stream_output "1"] |}.
Proof. reflexivity. Qed.

Lemma one_output_not_nil : [stream_output "1"] <> [].
Proof. discriminate. Qed.

(** The code cell of the sample notebook has one output; its second is
    asked for. *)
Lemma output_index_out_of_bounds_witness :
  get_full_output plain_json_dumps "nb.ipynb" 2 2 None sample_fs =
    fetch_failure
      (Some "Output index 2 out of bounds for cell 2. Please use a 1-based index.").
Proof.
  exact (output_index_out_of_bounds plain_json_dumps sample_fs "nb.ipynb" sample_notebook
           2 2 None _ sample_fs_holds (ltac:(lia) : 1 <= 2) sample_second_cell eq_refl
           one_output_not_nil (or_intror (ltac:(simpl; lia) : Z.of_nat 1 < 2))).
Defined.

(** X8. A stream output is fetched as its whole text with the mime type
    [text/] followed by the stream's name, and an error output as the
    record of its name, value and traceback with [application/json]; the
    type hint plays no part in either. *)
Theorem fetch_stream_and_error json_dumps (fs : FS) (path : string) (nb : Notebook)
    (cell_index output_index : Z) (type_hint : option string) (c : Cell) (o : Output) :
  files fs !! path = Some (NotebookFile nb) ->
  1 <= cell_index ->
  cells nb !! Z.to_nat (cell_index - 1) = Some c ->
  cell_type c = "code" ->
  1 <= output_index ->
  outputs c !! Z.to_nat (output_index - 1) = Some o ->
  (output_type o = "stream" ->
   get_full_output json_dumps path cell_index output_index type_hint fs =
     {| full_output_data := Some (DataStr (text o));
        mime_type := Some ("text/" +:+ name o); fetch_error := None |})
  /\ (output_type o = "error" ->
      get_full_output json_dumps path cell_index output_index type_hint fs =
        {| full_output_data := Some (DataError (ename o) (evalue o) (traceback o));
           mime_type := Some "application/json"; fetch_error := None |}).
Proof.
  intros Hf Hc Hcell Hcode Ho Hout.
  split; intros Hty; fetch_past_checks Hf Hcell Hcode Hout; now rewrite Hty.
Qed.


Lemma outputs_first_cell :
  cells outputs_notebook !! Z.to_nat (1 - 1) =
    Some {| cell_type := "code"; source := "run()";
            outputs := [ {| output_type := "stream"; name := "stderr";
                            text := "warning"; data := [];
                            ename := EmptyString; evalue := EmptyString;
                            traceback := [] |};
                         error_output "ValueError" "bad value" ["line 1"; "line 2"];
                         widget_output;
                         display_output [("image/png", "iVBORw0KGgo=");
                                         ("text/plain", "<Figure>")] ] |}.
Proof. reflexivity. Qed.

(** The warning on [stderr], asked for as an image. *)
Lemma fetch_stream_and_error_witness :
  get_full_output plain_json_dumps "o.ipynb" 1 1 (Some "image") outputs_fs =
    {| full_output_data := Some (DataStr "warning"); mime_type := Some "text/stderr";
       fetch_error := None |}.
Proof.
  exact (proj1 (fetch_stream_and_error plain_json_dumps outputs_fs "o.ipynb"
                  outputs_notebook 1 1 (Some "image") _ _ outputs_fs_holds
                  (ltac:(lia) : 1 <= 1) outputs_first_cell eq_refl
                  (ltac:(lia) : 1 <= 1) eq_refl)
           eq_refl).
Defined.

(** X9. Fetching an output that exists never fails: the error field is
    empty whatever the output's type and the type hint are. The payload and
    the mime type are present when the type is one of the four known ones,
    and both absent when it is not, so an unknown output is answered with
    an empty success. *)
Theorem fetch_existing_output json_dumps (fs : FS) (path : string) (nb : Notebook)
    (cell_index output_index : Z) (type_hint : option string) (c : Cell) (o : Output) :
  files fs !! path = Some (NotebookFile nb) ->
  1 <= cell_index ->
  cells nb !! Z.to_nat (cell_index - 1) = Some c ->
  cell_type c = "code" ->
  1 <= output_index ->
  outputs c !! Z.to_nat (output_index - 1) = Some o ->
  let r := get_full_output json_dumps path cell_index output_index type_hint fs in
  fetch_error r = None
  /\ (recognized (output_type o) = true ->
      is_Some (full_output_data r) /\ is_Some (mime_type r))
  /\ (recognized (output_type o) = false ->
      full_output_data r = None /\ mime_type r = None).
Proof.
  intros Hf Hc Hcell Hcode Ho Hout r. subst r.
  fetch_past_checks Hf Hcell Hcode Hout.
  unfold recognized.
  destruct (String.eqb (output_type o) "stream"); simpl; [repeat split; eauto; discriminate |].
  destruct (String.eqb (output_type o) "display_data"); simpl.
  { destruct (select_payload json_dumps type_hint (data o)).
    simpl. repeat split; eauto; discriminate. }
  destruct (String.eqb (output_type o) "execute_result"); simpl.
  { destruct (select_payload json_dumps type_hint (data o)).
    simpl. repeat split; eauto; discriminate. }
  destruct (String.eqb (output_type o) "error"); simpl; repeat split; eauto; discriminate.
Qed.

(** The output of an unknown type, third of the cell. *)
Lemma fetch_existing_output_witness :
  let r := get_full_output plain_json_dumps "o.ipynb" 1 3 None outputs_fs in
  fetch_error r = None
  /\ (recognized "widget_state" = true ->
      is_Some (full_output_data r) /\ is_Some (mime_type r))
  /\ (recognized "widget_state" = false ->
      full_output_data r = None /\ mime_type r = None).
Proof.
  exact (fetch_existing_output plain_json_dumps outputs_fs "o.ipynb" outputs_notebook
           1 3 None _ _ outputs_fs_holds (ltac:(lia) : 1 <= 1) outputs_first_cell eq_refl
           (ltac:(lia) : 1 <= 3) eq_refl).
Defined.

(** ** Failures of the write *)

(** X10. When opening the path for writing raises, an editor whose checks
    have passed answers with [success] false and [Error writing notebook:
    <exception>], [add_cell] with the index -1 besides, and the store is
    the one the call found: the change made in memory is lost. *)
Theorem editors_on_open_failure (fs : FS) (path : string) (nb : Notebook) (exc : string) :
  files fs !! path = Some (NotebookFile nb) ->
  on_write fs path = OpenRaises exc ->
  let err := Some ("Error writing notebook: " +:+ exc) in
  let failed := {| success := false; filepath_of := path; error := err |} in
  (forall cell_index new_source_content nb',
     edit_cell_in_memory cell_index new_source_content nb = (None, nb') ->
     edit_cell path cell_index new_source_content fs = (failed, fs))
  /\ (forall cell_index nb',
        delete_cell_in_memory cell_index nb = (None, nb') ->
        delete_cell path cell_index fs = (failed, fs))
  /\ (forall cell_index1 cell_index2 nb',
        merge_cells_in_memory cell_index1 cell_index2 nb = (None, nb') ->
        merge_cells path cell_index1 cell_index2 fs = (failed, fs))
  /\ (forall cell_index type source_content nb',
        add_cell_in_memory cell_index type source_content nb = (None, nb') ->
        add_cell path cell_index type source_content fs =
          ({| add_success := false; add_filepath := path; new_cell_actual_index := -1;
              add_error := err |}, fs)).
Proof.
  intros Hf Hw err failed.
  assert (Hframe : forall body nb', body nb = (None, nb') ->
                                    edit_tool body path fs = (failed, fs)).
  { intros body nb' Hb. unfold edit_tool. rewrite (read_notebook_file _ _ _ Hf). simpl.
    rewrite Hb. unfold _write_notebook. now rewrite Hw. }
  repeat split.
  - intros k src nb' Hb. exact (Hframe _ _ Hb).
  - intros k nb' Hb. exact (Hframe _ _ Hb).
  - intros a b nb' Hb. exact (Hframe _ _ Hb).
  - intros k ty src nb' Hb. unfold add_cell. rewrite (read_notebook_file _ _ _ Hf). simpl.
    rewrite Hb. unfold _write_notebook. now rewrite Hw.
Qed.

(** The notebook of the faulty store that cannot be opened for writing. *)
Lemma editors_on_open_failure_witness :
  let err := Some "Error writing notebook: Permission denied" in
  let failed := {| success := false; filepath_of := "ro.ipynb"; error := err |} in
  (forall cell_index new_source_content nb',
     edit_cell_in_memory cell_index new_source_content sample_notebook = (None, nb') ->
     edit_cell "ro.ipynb" cell_index new_source_content faulty_fs = (failed, faulty_fs))
  /\ (forall cell_index nb',
        delete_cell_in_memory cell_index sample_notebook = (None, nb') ->
        delete_cell "ro.ipynb" cell_index faulty_fs = (failed, faulty_fs))
  /\ (forall cell_index1 cell_index2 nb',
        merge_cells_in_memory cell_index1 cell_index2 sample_notebook = (None, nb') ->
        merge_cells "ro.ipynb" cell_index1 cell_index2 faulty_fs = (failed, faulty_fs))
  /\ (forall cell_index type source_content nb',
        add_cell_in_memory cell_index type source_content sample_notebook = (None, nb') ->
        add_cell "ro.ipynb" cell_index type source_content faulty_fs =
          ({| add_success := false; add_filepath := "ro.ipynb";
              new_cell_actual_index := -1; add_error := err |}, faulty_fs)).
Proof.
  exact (editors_on_open_failure faulty_fs "ro.ipynb" sample_notebook "Permission denied"
           faulty_fs_ro eq_refl).
Defined.

(** ** What the editors do to the cell sequence *)

Lemma list_insert_at_length {A} (i : nat) (x : A) (l : list A) :
  length (list_insert_at i x l) = S (length l).
Proof.
  unfold list_insert_at. rewrite length_app, length_take. simpl. rewrite length_drop. lia.
Qed.

Lemma list_insert_at_lookup {A} (i : nat) (x : A) (l : list A) :
  (i <= length l)%nat ->
  list_insert_at i x l !! i = Some x
  /\ (forall j, (j < i)%nat -> list_insert_at i x l !! j = l !! j)
  /\ (forall j, (i <= j)%nat -> list_insert_at i x l !! S j = l !! j).
Proof.
  intros Hi. unfold list_insert_at.
  assert (Lt : length (take i l) = i) by (rewrite length_take; lia).
  repeat split.
  - rewrite lookup_app_r by lia. now rewrite Lt, Nat.sub_diag.
  - intros j Hj. rewrite lookup_app_l by lia. now apply lookup_take_lt.
  - intros j Hj. rewrite lookup_app_r by lia. rewrite Lt.
    replace (S j - i)%nat with (S (j - i)) by lia. simpl.
    rewrite lookup_drop. f_equal. lia.
Qed.

(** X11. A successful [add_cell] at the 1-based index [k] answers with [k]
    and stores a notebook with one cell more: the new cell, of the type
    and source asked for and without outputs, stands at [k]; the cells
    before [k] keep their places and those from [k] on move one place up. *)
Theorem add_cell_inserts (fs : FS) (path : string) (nb : Notebook) (cell_index : Z)
    (type source_content : string) :
  files fs !! path = Some (NotebookFile nb) ->
  1 <= cell_index <= Z.of_nat (length (cells nb)) + 1 ->
  type = "code" \/ type = "markdown" ->
  on_write fs path = WriteOk ->
  let i := Z.to_nat (cell_index - 1) in
  exists nb',
    add_cell path cell_index type source_content fs =
      ({| add_success := true; add_filepath := path;
          new_cell_actual_index := cell_index; add_error := None |},
       {| files := <[path := NotebookFile nb']> (files fs); on_write := on_write fs |})
    /\ length (cells nb') = S (length (cells nb))
    /\ cells nb' !! i =
         Some {| cell_type := type; source := source_content; outputs := [] |}
    /\ (forall j, (j < i)%nat -> cells nb' !! j = cells nb !! j)
    /\ (forall j, (i <= j)%nat -> cells nb' !! S j = cells nb !! j).
Proof.
  intros Hf Hk Hty Hw i.
  set (new_cell := {| cell_type := type; source := source_content; outputs := [] |}).
  exists {| cells := list_insert_at i new_cell (cells nb) |}.
  destruct (list_insert_at_lookup i new_cell (cells nb) ltac:(lia)) as [L1 [L2 L3]].
  split; [| split; [apply list_insert_at_length | auto]].
  unfold add_cell. rewrite (read_notebook_file _ _ _ Hf). simpl.
  unfold add_cell_in_memory.
  assert (R : (0 <=? cell_index - 1) && (cell_index - 1 <=? Z.of_nat (length (cells nb)))
              = true).
  { apply andb_true_intro. split; apply Z.leb_le; lia. }
  rewrite R. simpl. fold i. subst new_cell.
  destruct Hty as [-> | ->]; simpl; unfold _write_notebook; now rewrite Hw.
Qed.

(** A markdown cell appended to the sample notebook. *)
Lemma add_cell_inserts_witness :
  exists nb',
    add_cell "nb.ipynb" 3 "markdown" "## End" sample_fs =
      ({| add_success := true; add_filepath := "nb.ipynb";
          new_cell_actual_index := 3; add_error := None |},
       {| files := <["nb.ipynb" := NotebookFile nb']> (files sample_fs);
          on_write := on_write sample_fs |})
    /\ length (cells nb') = 3%nat
    /\ cells nb' !! 2%nat =
         Some {| cell_type := "markdown"; source := "## End"; outputs := [] |}
    /\ (forall j, (j < 2)%nat -> cells nb' !! j = cells sample_notebook !! j)
    /\ (forall j, (2 <= j)%nat -> cells nb' !! S j = cells sample_notebook !! j).
Proof.
  exact (add_cell_inserts sample_fs "nb.ipynb" sample_notebook 3 "markdown" "## End"
           sample_fs_holds (ltac:(simpl; lia) : 1 <= 3 <= Z.of_nat 2 + 1)
           (or_intror eq_refl) eq_refl).
Defined.

(** X12. A successful [delete_cell] at the 1-based index [k] stores a
    notebook with one cell less: the cells before [k] keep their places
    and contents, and those after [k] move one place down unchanged. *)
Theorem delete_cell_removes (fs : FS) (path : string) (nb : Notebook) (cell_index : Z) :
  files fs !! path = Some (NotebookFile nb) ->
  1 <= cell_index <= Z.of_nat (length (cells nb)) ->
  on_write fs path = WriteOk ->
  let i := Z.to_nat (cell_index - 1) in
  exists nb',
    delete_cell path cell_index fs =
      ({| success := true; filepath_of := path; error := None |},
       {| files := <[path := NotebookFile nb']> (files fs); on_write := on_write fs |})
    /\ S (length (cells nb')) = length (cells nb)
    /\ (forall j, (j < i)%nat -> cells nb' !! j = cells nb !! j)
    /\ (forall j, (i <= j)%nat -> cells nb' !! j = cells nb !! S j).
Proof.
  intros Hf Hk Hw i.
  exists {| cells := delete i (cells nb) |}. simpl.
  split; [| split; [| split]].
  - unfold delete_cell. apply edit_tool_commits with (nb := nb); [exact Hf | | exact Hw].
    unfold delete_cell_in_memory.
    assert (R : in_range (cell_index - 1) (length (cells nb)) = true)
      by (apply in_range_bounds; lia).
    now rewrite R.
  - assert (Hs : is_Some (cells nb !! i)) by (apply lookup_lt_is_Some; lia).
    rewrite (length_delete _ _ Hs). lia.
  - intros j Hj. now apply list_lookup_delete_lt.
  - intros j Hj. now apply list_lookup_delete_ge.
Qed.

(** The title of the sample notebook deleted. *)
Lemma delete_cell_removes_witness :
  exists nb',
    delete_cell "nb.ipynb" 1 sample_fs =
      ({| success := true; filepath_of := "nb.ipynb"; error := None |},
       {| files := <["nb.ipynb" := NotebookFile nb']> (files sample_fs);
          on_write := on_write sample_fs |})
    /\ S (length (cells nb')) = 2%nat
    /\ (forall j, (j < 0)%nat -> cells nb' !! j = cells sample_notebook !! j)
    /\ (forall j, (0 <= j)%nat -> cells nb' !! j = cells sample_notebook !! S j).
Proof.
  exact (delete_cell_removes sample_fs "nb.ipynb" sample_notebook 1 sample_fs_holds
           (ltac:(simpl; lia) : 1 <= 1 <= Z.of_nat 2) eq_refl).
Defined.

(** ** How the editors compose *)

Lemma edit_cell_in_memory_result (nb : Notebook) (cell_index : Z)
    (new_source_content : string) (c : Cell) :
  1 <= cell_index ->
  cells nb !! Z.to_nat (cell_index - 1) = Some c ->
  edit_cell_in_memory cell_index new_source_content nb =
    (None, {| cells := <[Z.to_nat (cell_index - 1) := edited_of new_source_content c]>
                         (cells nb) |}).
Proof.
  intros Hk Hc. unfold edit_cell_in_memory. rewrite_in_range Hc. simpl.
  pose proof (lookup_lt_Some _ _ _ Hc) as Hlt.
  set (i := Z.to_nat (cell_index - 1)) in *.
  assert (H1 : alter (set_source new_source_content) i (cells nb) !! i
               = Some (set_source new_source_content c)).
  { rewrite list_lookup_alter_eq. now rewrite Hc. }
  rewrite (list_lookup_total_correct _ _ _ H1). simpl.
  do 2 f_equal. apply list_eq. intros j. unfold edited_of.
  destruct (String.eqb (cell_type c) "code"); destruct (decide (j = i)) as [-> | Hj].
  - rewrite !list_lookup_alter_eq, Hc. simpl. now rewrite list_lookup_insert_eq.
  - rewrite !list_lookup_alter_ne by congruence.
    now rewrite list_lookup_insert_ne by congruence.
  - rewrite list_lookup_alter_eq, Hc. simpl. now rewrite list_lookup_insert_eq.
  - rewrite list_lookup_alter_ne by congruence.
    now rewrite list_lookup_insert_ne by congruence.
Qed.







(** A cell that is not code, or has no outputs, has nothing to fetch. *)
Lemma fetch_nothing json_dumps (fs : FS) (path : string) (nb : Notebook)
    (cell_index output_index : Z) (type_hint : option string) (c : Cell) :
  files fs !! path = Some (NotebookFile nb) ->
  1 <= cell_index ->
  cells nb !! Z.to_nat (cell_index - 1) = Some c ->
  outputs c = [] ->
  get_full_output json_dumps path cell_index output_index type_hint fs =
    fetch_failure (Some ("Cell " +:+ Py.str cell_index
                         +:+ " is not a code cell or has no outputs.")).
Proof.
  intros Hf Hk Hc Hos. unfold get_full_output.
  rewrite (read_notebook_file _ _ _ Hf). simpl. rewrite_in_range Hc. simpl.
  rewrite (list_lookup_total_correct _ _ _ Hc), Hos. now rewrite orb_true_r.
Qed.

(** X14. After a successful [edit_cell] on a code cell, no output of that
    cell can be fetched any more: whatever the output index and the type
    hint, [get_full_output] answers that the cell is not a code cell or has
    no outputs. *)
Theorem edit_cell_then_fetch json_dumps (fs : FS) (path : string) (nb : Notebook)
    (cell_index : Z) (new_source_content : string) (c : Cell) :
  files fs !! path = Some (NotebookFile nb) ->
  1 <= cell_index ->
  cells nb !! Z.to_nat (cell_index - 1) = Some c ->
  cell_type c = "code" ->
  on_write fs path = WriteOk ->
  forall output_index type_hint,
    get_full_output json_dumps path cell_index output_index type_hint
      (snd (edit_cell path cell_index new_source_content fs))
    = fetch_failure (Some ("Cell " +:+ Py.str cell_index
                           +:+ " is not a code cell or has no outputs.")).
Proof.
  intros Hf Hk Hc Hcode Hw output_index type_hint.
  unfold edit_cell.
  rewrite edit_tool_commits
    with (nb := nb)
         (nb' := {| cells := <[Z.to_nat (cell_index - 1) := edited_of new_source_content c]>
                               (cells nb) |});
    [| exact Hf | now apply edit_cell_in_memory_result | exact Hw].
  simpl.
  apply fetch_nothing
    with (nb := {| cells := <[Z.to_nat (cell_index - 1) := edited_of new_source_content c]>
                              (cells nb) |})
         (c := edited_of new_source_content c).
  - simpl. apply lookup_insert_eq.
  - exact Hk.
  - simpl. apply list_lookup_insert_eq. now apply lookup_lt_Some in Hc.
  - unfold edited_of. simpl. now rewrite Hcode.
Qed.

(** The printed [1] of the sample notebook, asked for after an edit. *)
Lemma edit_cell_then_fetch_witness :
  get_full_output plain_json_dumps "nb.ipynb" 2 1 None
    (snd (edit_cell "nb.ipynb" 2 "print(2)" sample_fs))
  = fetch_failure (Some "Cell 2 is not a code cell or has no outputs.").
Proof.
  exact (edit_cell_then_fetch plain_json_dumps sample_fs "nb.ipynb" sample_notebook 2
           "print(2)" _ sample_fs_holds (ltac:(lia) : 1 <= 2) sample_second_cell eq_refl
           eq_refl 1 None).
Defined.

Lemma merge_cells_commits (fs : FS) (path : string) (nb : Notebook) (a : Z)
    (c1 c2 : Cell) :
  files fs !! path = Some (NotebookFile nb) ->
  1 <= a ->
  cells nb !! Z.to_nat (a - 1) = Some c1 ->
  cells nb !! Z.to_nat a = Some c2 ->
  on_write fs path = WriteOk ->
  merge_cells path a (a + 1) fs =
    ({| success := true; filepath_of := path; error := None |},
     {| files := <[path := NotebookFile
                     {| cells := take (Z.to_nat (a - 1)) (cells nb)
                                 ++ merged_of c1 c2 :: drop (Z.to_nat (a + 1)) (cells nb) |}]>
                   (files fs);
        on_write := on_write fs |}).
Proof.
  intros Hf Ha H1 H2 Hw. unfold merge_cells.
  apply edit_tool_commits with (nb := nb); [exact Hf | | exact Hw].
  now apply merge_cells_in_memory_adjacent.
Qed.

Lemma lookup_middle {A} (l1 l2 : list A) (x : A) (i : nat) :
  length l1 = i -> (l1 ++ x :: l2) !! i = Some x.
Proof. intros <-. now rewrite list_lookup_middle. Qed.

(** X15. After a successful merge of the cells at [a] and [a + 1], the
    merged cell at [a] has nothing to fetch, whatever outputs the two cells
    had: [get_full_output] at [a] answers that the cell is not a code cell
    or has no outputs for every output index and type hint. *)
Theorem merge_cells_then_fetch json_dumps (fs : FS) (path : string) (nb : Notebook)
    (a : Z) (c1 c2 : Cell) :
  files fs !! path = Some (NotebookFile nb) ->
  1 <= a ->
  cells nb !! Z.to_nat (a - 1) = Some c1 ->
  cells nb !! Z.to_nat a = Some c2 ->
  on_write fs path = WriteOk ->
  forall output_index type_hint,
    get_full_output json_dumps path a output_index type_hint
      (snd (merge_cells path a (a + 1) fs))
    = fetch_failure (Some ("Cell " +:+ Py.str a
                           +:+ " is not a code cell or has no outputs.")).
Proof.
  intros Hf Ha H1 H2 Hw output_index type_hint.
  rewrite (merge_cells_commits fs path nb a c1 c2 Hf Ha H1 H2 Hw). simpl.
  eapply fetch_nothing with (c := merged_of c1 c2).
  - simpl. apply lookup_insert_eq.
  - exact Ha.
  - simpl. apply lookup_middle. rewrite length_take.
    apply lookup_lt_Some in H1. lia.
  - reflexivity.
Qed.

Lemma table_first_cell :
  cells table_notebook !! Z.to_nat (1 - 1) =
    Some {| cell_type := "code"; source := "df";
            outputs := [display_output [("text/html", sample_table_html);
                                        ("text/plain", "a b")]] |}.
Proof. reflexivity. Qed.

Lemma raw_fs_holds : files raw_fs !! "r.ipynb" = Some (NotebookFile raw_notebook).
Proof. apply lookup_singleton_eq. Qed.

Lemma raw_first_cell :
  cells raw_notebook !! Z.to_nat (1 - 1) =
    Some {| cell_type := "raw"; source := "%%latex"; outputs := [] |}.
Proof. reflexivity. Qed.

Lemma raw_second_cell :
  cells raw_notebook !! Z.to_nat 1 =
    Some {| cell_type := "code"; source := "print(1)"; outputs := [stream_output "1"] |}.
Proof. reflexivity. Qed.

(** The raw cell and the code cell merged, and the printed [1] asked for. *)
Lemma merge_cells_then_fetch_witness :
  get_full_output plain_json_dumps "r.ipynb" 1 1 None
    (snd (merge_cells "r.ipynb" 1 (1 + 1) raw_fs))
  = fetch_failure (Some "Cell 1 is not a code cell or has no outputs.").
Proof.
  exact (merge_cells_then_fetch plain_json_dumps raw_fs "r.ipynb" raw_notebook 1 _ _
           raw_fs_holds (ltac:(lia) : 1 <= 1) raw_first_cell raw_second_cell eq_refl
           1 None).
Defined.

(** Joining with a separator, one element ahead of a list that is not
    empty. *)
Lemma join_cons_cons (sep x y : string) (l : list string) :
  Py.join sep (x :: y :: l) = x +:+ sep +:+ Py.join sep (y :: l).
Proof. reflexivity. Qed.

Lemma join_merge_middle (sep s1 s2 : string) (pre post : list string) :
  Py.join sep (pre ++ (s1 +:+ sep +:+ s2) :: post) = Py.join sep (pre ++ s1 :: s2 :: post).
Proof.
  induction pre as [|p pre IH].
  - cbn [app]. destruct post as [|q post]; [reflexivity |].
    rewrite (join_cons_cons sep (s1 +:+ sep +:+ s2)), (join_cons_cons sep s1).
    rewrite (join_cons_cons sep s2). now rewrite !str_app_assoc.
  - destruct pre as [|p' pre]; cbn [app] in *;
      rewrite !(join_cons_cons sep p); now rewrite IH.
Qed.

(** X16. A successful merge keeps the text of the document: the sources of
    all cells joined by line feeds are the same string before and after,
    since the merged source is the two sources joined by one line feed. *)
Theorem merge_cells_keeps_text (fs : FS) (path : string) (nb : Notebook) (a : Z)
    (c1 c2 : Cell) :
  files fs !! path = Some (NotebookFile nb) ->
  1 <= a ->
  cells nb !! Z.to_nat (a - 1) = Some c1 ->
  cells nb !! Z.to_nat a = Some c2 ->
  on_write fs path = WriteOk ->
  exists nb',
    files (snd (merge_cells path a (a + 1) fs)) !! path = Some (NotebookFile nb')
    /\ Py.join LF (map source (cells nb')) = Py.join LF (map source (cells nb)).
Proof.
  intros Hf Ha H1 H2 Hw.
  rewrite (merge_cells_commits fs path nb a c1 c2 Hf Ha H1 H2 Hw). simpl.
  eexists. split; [apply lookup_insert_eq |]. simpl.
  set (i := Z.to_nat (a - 1)) in *.
  replace (Z.to_nat a) with (S i) in H2 by lia.
  replace (Z.to_nat (a + 1)) with (S (S i)) by lia.
  assert (Hsplit : cells nb = take i (cells nb) ++ c1 :: c2 :: drop (S (S i)) (cells nb)).
  { rewrite <- (take_drop_middle _ _ _ H1) at 1. do 2 f_equal.
    rewrite <- (take_drop_middle _ _ _ H2) at 1.
    rewrite drop_app_length'; [reflexivity |].
    rewrite length_take. apply lookup_lt_Some in H2. lia. }
  rewrite Hsplit at 3. rewrite !map_app. simpl.
  apply join_merge_middle.
Qed.

(** The two cells of the sample notebook merged. *)
Lemma merge_cells_keeps_text_witness :
  exists nb',
    files (snd (merge_cells "nb.ipynb" 1 (1 + 1) sample_fs)) !! "nb.ipynb"
      = Some (NotebookFile nb')
    /\ Py.join LF (map source (cells nb')) = "# Title" +:+ LF +:+ "print(1)".
Proof.
  exact (merge_cells_keeps_text sample_fs "nb.ipynb" sample_notebook 1 _ _
           sample_fs_holds (ltac:(lia) : 1 <= 1) sample_first_cell sample_second_cell
           eq_refl).
Defined.

(** X17. The merged cell is a code cell exactly when both cells were code
    cells. Every other pair gives a markdown cell: a raw cell merged with a
    code cell becomes markdown, and the outputs of the code cell are
    dropped with it. *)
Theorem merge_cells_type (fs : FS) (path : string) (nb : Notebook) (a : Z)
    (c1 c2 : Cell) :
  files fs !! path = Some (NotebookFile nb) ->
  1 <= a ->
  cells nb !! Z.to_nat (a - 1) = Some c1 ->
  cells nb !! Z.to_nat a = Some c2 ->
  on_write fs path = WriteOk ->
  exists nb' merged,
    files (snd (merge_cells path a (a + 1) fs)) !! path = Some (NotebookFile nb')
    /\ cells nb' !! Z.to_nat (a - 1) = Some merged
    /\ (cell_type merged = "code" <-> cell_type c1 = "code" /\ cell_type c2 = "code")
    /\ (cell_type c1 <> "code" \/ cell_type c2 <> "code" ->
        cell_type merged = "markdown")
    /\ outputs merged = [].
Proof.
  intros Hf Ha H1 H2 Hw.
  rewrite (merge_cells_commits fs path nb a c1 c2 Hf Ha H1 H2 Hw). simpl.
  eexists _, (merged_of c1 c2). split; [apply lookup_insert_eq |]. simpl.
  split.
  { apply lookup_middle. rewrite length_take. apply lookup_lt_Some in H1. lia. }
  destruct (String.eqb_spec (cell_type c1) "code") as [E1 | E1];
    destruct (String.eqb_spec (cell_type c2) "code") as [E2 | E2]; simpl;
    repeat split; try tauto; try discriminate; intros [? | ?]; congruence.
Qed.

(** The raw cell and the code cell of the raw notebook merged. *)
Lemma merge_cells_type_witness :
  exists nb' merged,
    files (snd (merge_cells "r.ipynb" 1 (1 + 1) raw_fs)) !! "r.ipynb"
      = Some (NotebookFile nb')
    /\ cells nb' !! Z.to_nat (1 - 1) = Some merged
    /\ (cell_type merged = "code" <-> @eq string "raw" "code" /\ @eq string "code" "code")
    /\ ((@eq string "raw" "code" -> False) \/ (@eq string "code" "code" -> False) ->
        cell_type merged = "markdown")
    /\ outputs merged = [].
Proof.
  exact (merge_cells_type raw_fs "r.ipynb" raw_notebook 1 _ _
           raw_fs_holds (ltac:(lia) : 1 <= 1) raw_first_cell raw_second_cell eq_refl).
Defined.

(** ** Output Formatter: bounds and edge cases *)

Lemma str_length_app (a b : string) :
  String.length (a +:+ b) = (String.length a + String.length b)%nat.
Proof.
  induction a as [|x a IH]; [reflexivity |].
  rewrite str_app_cons. simpl. now rewrite IH.
Qed.

Lemma slice_to_short (n : nat) (s : string) :
  (String.length s <= n)%nat -> Py.slice_to n s = s.
Proof.
  unfold Py.slice_to. revert s. induction n as [|n IH]; intros s Hs.
  - destruct s; [reflexivity | simpl in Hs; lia].
  - destruct s as [|c s]; [reflexivity |]. simpl in *. f_equal. apply IH. lia.
Qed.

Lemma slice_to_length (n : nat) (s : string) :
  (String.length (Py.slice_to n s) <= n)%nat.
Proof.
  unfold Py.slice_to. revert s. induction n as [|n IH]; intros s.
  - destruct s; simpl; lia.
  - destruct s as [|c s]; simpl; [lia |]. specialize (IH s). lia.
Qed.

(** X18. The summary of a text is bounded whatever the length of the text:
    at most 598 characters besides the digits of the two indices. *)
Theorem _format_text_output_bounded (text_content : string) (cell_idx output_idx : Z) :
  (String.length (_format_text_output text_content cell_idx output_idx)
   <= 598 + String.length (Py.str cell_idx) + String.length (Py.str output_idx))%nat.
Proof.
  unfold _format_text_output, MAX_TEXT_OUTPUT_LENGTH, locator.
  destruct (Nat.ltb_spec 500 (String.length text_content)) as [Hlong | Hshort].
  - rewrite !str_length_app.
    pose proof (slice_to_length 500 text_content) as Hs.
    change (String.length "Text: ") with 6%nat.
    change (String.length "... ") with 4%nat.
    change (String.length TRUNCATION_MARKER) with 11%nat.
    change (String.length " ") with 1%nat.
    change (String.length HINT_FULL_OUTPUT) with 39%nat.
    change (String.length "(cell ") with 6%nat.
    change (String.length " [1-based], output ") with 19%nat.
    change (String.length " [1-based])") with 11%nat.
    lia.
  - rewrite str_length_app. change (String.length "Text: ") with 6%nat. lia.
Qed.

Lemma data_rows_length unescape (trs : list string) :
  (length (data_rows unescape trs) <= length trs)%nat.
Proof.
  induction trs as [|tr rest IH]; [simpl; lia |].
  cbn [data_rows flat_map]. fold (data_rows unescape rest).
  rewrite length_app. destruct (Re.findall (tag_pattern "td") tr); simpl; lia.
Qed.

(** X19. Whatever the markup, the table the extractor builds has at most
    two header rows (the header and its separator) and at most five data
    rows. *)
Theorem table_rows_bounded unescape (html : string) :
  (length (header_rows unescape html) <= 2)%nat
  /\ (length (body_rows unescape 0 (body_tr_matches html)) <= 5)%nat.
Proof.
  split.
  - unfold header_rows. destruct (Re.search (tag_pattern "thead") html); [| simpl; lia].
    destruct (Re.findall (tag_pattern "th") s); simpl; lia.
  - rewrite body_rows_data_rows.
    pose proof (data_rows_length unescape (take (5 - 0) (body_tr_matches html))) as H.
    rewrite length_take in H. lia.
Qed.

(** X20. Markup with a header that has header cells and no body section
    gives a table of the header row and the separator row alone: no data
    row, no truncation marker, and not the fallback. *)
Theorem table_header_only unescape (html header_content : string)
    (th_matches : list string) (cell_idx output_idx : Z) :
  Re.search (tag_pattern "thead") html = Some header_content ->
  Re.findall (tag_pattern "th") header_content = th_matches ->
  th_matches <> [] ->
  Re.search (tag_pattern "tbody") html = None ->
  _format_table_output unescape html cell_idx output_idx =
    "Table (HTML): " +:+ LF +:+ "```markdown" +:+ LF
    +:+ pipe_row unescape th_matches +:+ LF +:+ separator_row th_matches +:+ LF
    +:+ "```" +:+ LF +:+ HINT_FULL_OUTPUT +:+ " " +:+ locator cell_idx output_idx.
Proof.
  intros Hhead Hth Hne Hbody.
  unfold _format_table_output, header_rows, body_tr_matches.
  rewrite Hhead, Hbody, Hth.
  destruct th_matches as [|th ths]; [congruence |].
  cbn [app body_rows length]. unfold MAX_TABLE_ROWS.
  change (5 <? 0)%nat with false. cbv iota.
  rewrite join_cons_cons. unfold Py.join at 1. cbn [String.concat].
  now rewrite !str_app_assoc.
Qed.

Lemma header_only_head :
  Re.search (tag_pattern "thead") header_only_html = Some "<tr><th>a</th><th>b</th></tr>".
Proof. vm_compute. reflexivity. Qed.

Lemma header_only_body : Re.search (tag_pattern "tbody") header_only_html = None.
Proof. vm_compute. reflexivity. Qed.

(** The table that has a header and nothing else. *)
Lemma table_header_only_witness :
  _format_table_output plain_unescape header_only_html 1 1 =
    "Table (HTML): " +:+ LF +:+ "```markdown" +:+ LF
    +:+ "| a | b |" +:+ LF +:+ "|---|---|" +:+ LF
    +:+ "```" +:+ LF
    +:+ "Use `get_full_output` for full content. (cell 1 [1-based], output 1 [1-based])".
Proof.
  exact (table_header_only plain_unescape header_only_html _ _ 1 1 header_only_head
           sample_table_head_cells two_cells_not_nil header_only_body).
Defined.

(** X21. Markup in which neither a header section nor a body section is
    found, a table of bare rows among them, is not read as a table: the
    answer is the first 500 characters of the markup between the label
    [HTML content (truncated):] and the truncation marker, and both the
    label and the marker are there also when the markup has at most 500
    characters and nothing is cut. *)
Theorem table_fallback unescape (html : string) (cell_idx output_idx : Z) :
  Re.search (tag_pattern "thead") html = None ->
  Re.search (tag_pattern "tbody") html = None ->
  _format_table_output unescape html cell_idx output_idx =
    "HTML content (truncated): " +:+ Py.slice_to 500 html +:+ "... "
    +:+ TRUNCATION_MARKER +:+ " " +:+ HINT_FULL_OUTPUT +:+ " "
    +:+ locator cell_idx output_idx
  /\ ((String.length html <= 500)%nat -> Py.slice_to 500 html = html).
Proof.
  intros Hhead Hbody. split; [| apply slice_to_short].
  unfold _format_table_output, header_rows, body_tr_matches.
  now rewrite Hhead, Hbody.
Qed.

Lemma bare_table_head : Re.search (tag_pattern "thead") bare_table_html = None.
Proof. vm_compute. reflexivity. Qed.

Lemma bare_table_body : Re.search (tag_pattern "tbody") bare_table_html = None.
Proof. vm_compute. reflexivity. Qed.

(** The table written by hand. *)
Lemma table_fallback_witness :
  _format_table_output plain_unescape bare_table_html 1 1 =
    "HTML content (truncated): " +:+ Py.slice_to 500 bare_table_html +:+ "... "
    +:+ TRUNCATION_MARKER +:+ " " +:+ HINT_FULL_OUTPUT +:+ " " +:+ locator 1 1
  /\ ((String.length bare_table_html <= 500)%nat ->
      Py.slice_to 500 bare_table_html = bare_table_html).
Proof.
  exact (table_fallback plain_unescape bare_table_html 1 1 bare_table_head bare_table_body).
Defined.

(** ** Rendering and fetching together *)








Lemma cell_pieces_without_outputs unescape (i : nat) (c : Cell) :
  outputs c = [] ->
  cell_pieces unescape i c = source_pieces i c ++ [LF].
Proof.
  intros Hos. unfold cell_pieces. rewrite Hos.
  now destruct (String.eqb (cell_type c) "code").
Qed.

(** X24. After a successful [edit_cell] on a code cell, the digest of the
    notebook the store then holds shows that cell as [Code] with its new
    source, stripped, and with no output section, whatever outputs the cell
    had; around it come the renderings of the cells the stored notebook
    has before and after that place. *)
Theorem edit_cell_then_render unescape (fs : FS) (path : string) (nb : Notebook)
    (cell_index : Z) (new_source_content : string) (c : Cell) :
  files fs !! path = Some (NotebookFile nb) ->
  1 <= cell_index ->
  cells nb !! Z.to_nat (cell_index - 1) = Some c ->
  cell_type c = "code" ->
  on_write fs path = WriteOk ->
  let i := Z.to_nat (cell_index - 1) in
  let fs' := snd (edit_cell path cell_index new_source_content fs) in
  exists nb',
    files fs' !! path = Some (NotebookFile nb')
    /\ length (cells nb') = length (cells nb)
    /\ formatted_content (get_formatted_content unescape path fs')
       = Py.join EmptyString (cells_pieces unescape 0 (take i (cells nb')))
         +:+ ("[[Cell " +:+ Py.str cell_index +:+ " - Code]]" +:+ LF)
         +:+ ("```" +:+ LF) +:+ Py.strip new_source_content +:+ (LF +:+ "```" +:+ LF)
         +:+ LF
         +:+ Py.join EmptyString (cells_pieces unescape (S i) (drop (S i) (cells nb'))).
Proof.
  intros Hf Hk Hc Hcode Hw i fs'.
  pose proof (lookup_lt_Some _ _ _ Hc) as Hlt. fold i in Hc, Hlt.
  exists {| cells := <[i := edited_of new_source_content c]> (cells nb) |}.
  assert (Efs : fs' = {| files := <[path := NotebookFile
                                     {| cells := <[i := edited_of new_source_content c]>
                                                   (cells nb) |}]> (files fs);
                         on_write := on_write fs |}).
  { subst fs'. unfold edit_cell.
    rewrite edit_tool_commits
      with (nb := nb)
           (nb' := {| cells := <[i := edited_of new_source_content c]> (cells nb) |});
      [reflexivity | exact Hf | now apply edit_cell_in_memory_result | exact Hw]. }
  rewrite Efs. cbn [files cells].
  split; [apply lookup_insert_eq |]. split; [apply length_insert |].
  rewrite get_formatted_content_digest
    with (nb := {| cells := <[i := edited_of new_source_content c]> (cells nb) |})
    by (simpl; apply lookup_insert_eq).
  cbn [cells].
  rewrite take_insert_ge by lia. rewrite drop_insert_lt by lia.
  rewrite insert_take_drop by exact Hlt.
  rewrite cells_pieces_app. cbn [cells_pieces].
  rewrite length_take. replace (0 + i `min` length (cells nb))%nat with i by lia.
  rewrite cell_pieces_without_outputs
    by (unfold edited_of; simpl; now rewrite Hcode).
  unfold source_pieces. unfold edited_of at 1 2. cbn [cell_type source].
  rewrite Hcode. change (Py.capitalize "code") with "Code".
  replace (Z.of_nat i + 1) with cell_index by lia.
  repeat (rewrite ?join_empty_app, ?join_empty_cons).
  rewrite !str_app_assoc. reflexivity.
Qed.

(** The code cell of the sample notebook, edited and rendered. *)
Lemma edit_cell_then_render_witness :
  let fs' := snd (edit_cell "nb.ipynb" 2 "  print(2)  " sample_fs) in
  exists nb',
    files fs' !! "nb.ipynb" = Some (NotebookFile nb')
    /\ length (cells nb') = 2%nat
    /\ formatted_content (get_formatted_content plain_unescape "nb.ipynb" fs')
       = Py.join EmptyString (cells_pieces plain_unescape 0 (take 1 (cells nb')))
         +:+ ("[[Cell 2 - Code]]" +:+ LF)
         +:+ ("```" +:+ LF) +:+ "print(2)" +:+ (LF +:+ "```" +:+ LF)
         +:+ LF
         +:+ Py.join EmptyString (cells_pieces plain_unescape 2 (drop 2 (cells nb'))).
Proof.
  exact (edit_cell_then_render plain_unescape sample_fs "nb.ipynb" sample_notebook 2
           "  print(2)  " _ sample_fs_holds (ltac:(lia) : 1 <= 2) sample_second_cell
           eq_refl eq_refl).
Defined.

(** ** Image identifiers *)

(** Below 1000 the padded form has three characters and spells the number:
    checked on each of the thousand numbers. *)
Lemma format_03d_table :
  forallb (fun n => (String.length (Py.format_03d (Z.of_nat n)) =? 3)%nat
                    && (digits_value (Py.format_03d (Z.of_nat n)) =? n)%nat)
          (seq 0 1000) = true.
Proof. vm_compute. reflexivity. Qed.

Lemma format_03d_below_1000 (n : Z) :
  0 <= n < 1000 ->
  String.length (Py.format_03d n) = 3%nat
  /\ digits_value (Py.format_03d n) = Z.to_nat n.
Proof.
  intros Hn. pose proof format_03d_table as H.
  rewrite forallb_forall in H. specialize (H (Z.to_nat n)).
  rewrite Z2Nat.id in H by lia.
  assert (Hin : In (Z.to_nat n) (seq 0 1000)) by (apply in_seq; lia).
  apply H in Hin. apply andb_true_iff in Hin. destruct Hin as [H1 H2].
  apply Nat.eqb_eq in H1. apply Nat.eqb_eq in H2. now split.
Qed.

Lemma str_app_inj_length (a a' b b' : string) :
  String.length a = String.length a' ->
  a +:+ b = a' +:+ b' ->
  a = a' /\ b = b'.
Proof.
  revert a'. induction a as [|x a IH]; intros [|x' a'] Hl E; simpl in Hl; try discriminate.
  - now split.
  - rewrite !str_app_cons in E. injection E as -> E.
    destruct (IH a' ltac:(lia) E) as [-> ->]. now split.
Qed.

(** X25. While the cell and output indices stay below 1000, the image
    summary carries an identifier of exactly six digits, three for each
    index, and two images with the same summary are the same output of the
    same cell. *)
Theorem _format_image_output_injective (cell_idx output_idx cell_idx' output_idx' : Z) :
  0 <= cell_idx < 1000 ->
  0 <= output_idx < 1000 ->
  0 <= cell_idx' < 1000 ->
  0 <= output_idx' < 1000 ->
  String.length (Py.format_03d cell_idx +:+ Py.format_03d output_idx) = 6%nat
  /\ (_format_image_output cell_idx output_idx = _format_image_output cell_idx' output_idx' ->
      cell_idx = cell_idx' /\ output_idx = output_idx').
Proof.
  intros Hc Ho Hc' Ho'.
  destruct (format_03d_below_1000 cell_idx Hc) as [Lc Vc].
  destruct (format_03d_below_1000 output_idx Ho) as [Lo Vo].
  destruct (format_03d_below_1000 cell_idx' Hc') as [Lc' Vc'].
  destruct (format_03d_below_1000 output_idx' Ho') as [Lo' Vo'].
  split; [rewrite str_length_app; lia |].
  unfold _format_image_output. intros E.
  apply (String.app_inj "Image (PNG) - IMG_ID") in E.
  apply str_app_inj_length in E; [| congruence]. destruct E as [Ec E].
  apply str_app_inj_length in E; [| congruence]. destruct E as [Eo _].
  split.
  - rewrite Ec in Vc. lia.
  - rewrite Eo in Vo. lia.
Qed.

(** The first output of cell 12 and the twelfth output of cell 1. *)
Lemma _format_image_output_injective_witness :
  String.length (Py.format_03d 12 +:+ Py.format_03d 1) = 6%nat
  /\ (_format_image_output 12 1 = _format_image_output 1 12 ->
      12 = 1 /\ 1 = 12).
Proof.
  exact (_format_image_output_injective 12 1 1 12
           (ltac:(lia) : 0 <= 12 < 1000) (ltac:(lia) : 0 <= 1 < 1000)
           (ltac:(lia) : 0 <= 1 < 1000) (ltac:(lia) : 0 <= 12 < 1000)).
Defined.

(** ** Deleting and inserting again *)

Lemma list_insert_at_delete {A} (l : list A) (i : nat) (x y : A) :
  l !! i = Some y -> list_insert_at i x (delete i l) = <[i := x]> l.
Proof.
  unfold list_insert_at. revert i.
  induction l as [|a l IH]; intros [|i] Hy; simpl in *; try discriminate.
  - reflexivity.
  - f_equal. now apply IH.
Qed.

(** X26. Deleting a code or markdown cell and inserting a cell of its type
    and source at the same index does not bring back its outputs: the
    stored notebook has as many cells as before, the cell at that place has
    the type and source of the deleted one and no outputs, and every other
    place holds the cell it held. *)
Theorem delete_then_add (fs : FS) (path : string) (nb : Notebook) (cell_index : Z)
    (c : Cell) :
  files fs !! path = Some (NotebookFile nb) ->
  1 <= cell_index ->
  cells nb !! Z.to_nat (cell_index - 1) = Some c ->
  cell_type c = "code" \/ cell_type c = "markdown" ->
  on_write fs path = WriteOk ->
  let i := Z.to_nat (cell_index - 1) in
  let fs1 := snd (delete_cell path cell_index fs) in
  let fs2 := snd (add_cell path cell_index (cell_type c) (source c) fs1) in
  exists nb2 cell,
    files fs2 !! path = Some (NotebookFile nb2)
    /\ length (cells nb2) = length (cells nb)
    /\ cells nb2 !! i = Some cell
    /\ cell_type cell = cell_type c
    /\ source cell = source c
    /\ outputs cell = []
    /\ (forall j, j <> i -> cells nb2 !! j = cells nb !! j).
Proof.
  intros Hf Hk Hc Hty Hw i fs1 fs2.
  fold i in Hc.
  pose proof (lookup_lt_Some _ _ _ Hc) as Hlt.
  assert (E1 : delete_cell path cell_index fs =
               ({| success := true; filepath_of := path; error := None |},
                {| files := <[path := NotebookFile {| cells := delete i (cells nb) |}]>
                              (files fs);
                   on_write := on_write fs |})).
  { unfold delete_cell. apply edit_tool_commits with (nb := nb); [exact Hf | | exact Hw].
    unfold delete_cell_in_memory.
    assert (R : in_range (cell_index - 1) (length (cells nb)) = true)
      by (apply in_range_bounds; lia).
    now rewrite R. }
  assert (Hlen : S (length (delete i (cells nb))) = length (cells nb)).
  { rewrite (length_delete _ _ (ex_intro _ c Hc)). lia. }
  assert (Hnew : list_insert_at i (set_outputs [] c) (delete i (cells nb))
                 = <[i := set_outputs [] c]> (cells nb)).
  { now apply list_insert_at_delete with (y := c). }
  assert (E2 : fs2 =
               {| files := <[path := NotebookFile
                               {| cells := <[i := set_outputs [] c]> (cells nb) |}]>
                             (files fs);
                  on_write := on_write fs |}).
  { subst fs2 fs1. rewrite E1. cbn [snd]. unfold add_cell, _read_notebook. cbn [files].
    rewrite lookup_insert_eq. simpl. unfold add_cell_in_memory. cbn [cells].
    assert (R : (0 <=? cell_index - 1)
                && (cell_index - 1 <=? Z.of_nat (length (delete i (cells nb)))) = true).
    { apply andb_true_intro. split; apply Z.leb_le; lia. }
    rewrite R. cbn [negb]. fold i.
    assert (Hcell : (if String.eqb (cell_type c) "code"
                     then Some (new_code_cell (source c))
                     else if String.eqb (cell_type c) "markdown"
                          then Some (new_markdown_cell (source c)) else None)
                    = Some (set_outputs [] c)).
    { unfold set_outputs, new_code_cell, new_markdown_cell.
      destruct Hty as [E | E]; rewrite E; reflexivity. }
    rewrite Hcell. unfold _write_notebook. cbn [on_write files]. rewrite Hw. cbn [snd].
    now rewrite Hnew, insert_insert_eq. }
  exists {| cells := <[i := set_outputs [] c]> (cells nb) |}, (set_outputs [] c).
  rewrite E2. cbn [files cells].
  split; [apply lookup_insert_eq |]. split; [apply length_insert |].
  split; [now apply list_lookup_insert_eq |].
  repeat split.
  intros j Hj. apply list_lookup_insert_ne. congruence.
Qed.

(** The code cell of the sample notebook, deleted and inserted again: its
    output is gone. *)
Lemma delete_then_add_witness :
  let fs1 := snd (delete_cell "nb.ipynb" 2 sample_fs) in
  let fs2 := snd (add_cell "nb.ipynb" 2 "code" "print(1)" fs1) in
  exists nb2 cell,
    files fs2 !! "nb.ipynb" = Some (NotebookFile nb2)
    /\ length (cells nb2) = 2%nat
    /\ cells nb2 !! 1%nat = Some cell
    /\ cell_type cell = "code"
    /\ source cell = "print(1)"
    /\ outputs cell = []
    /\ (forall j, j <> 1%nat -> cells nb2 !! j = cells sample_notebook !! j).
Proof.
  exact (delete_then_add sample_fs "nb.ipynb" sample_notebook 2 _ sample_fs_holds
           (ltac:(lia) : 1 <= 2) sample_second_cell (or_introl eq_refl) eq_refl).
Defined.
